(** * Observability and alert watcher (watcher/watcher.py)

    A shallow embedding of the stateful core of the log watcher: the alert
    cooldown gate ([AlertManager]), the blue/green pool tracker
    ([PoolTracker]), the sliding-window error-rate monitor
    ([ErrorRateMonitor]) and the per-entry decision procedure
    ([LogWatcher.process_log_entry]), followed by the properties the
    specification states about them.

    Conventions of the embedding.
    - Python [int] is [Z]; Python [float] is IEEE 754 binary64, modelled by
      [spec_float] at precision 53 and maximal exponent 1024.
    - Python [str] is [string]; a character stands for the code point of the
      same number, so the model covers text whose code points are below 256.
      [str.lower], [str.strip] and [int(str)] are the restrictions of the
      Python methods to that range.
    - [datetime.now()] is an integer number of microseconds, the resolution
      of [datetime]; [timedelta(seconds=n)] is [n * 1000000]. The configured
      cooldown is taken inside the range [timedelta] can represent.
    - Locks are not modelled: every method body runs as one atomic step.
    - The clock and the Slack webhook are the environment: each entry is
      processed against an [env] giving the clock readings and the outcome
      of the HTTP posts that the processing of that entry may perform. *)

From Stdlib Require Import ZArith Ascii String List.
From Stdlib Require Import Floats.SpecFloat.
From stdpp Require Import base option list gmap strings.

Local Open Scope Z_scope.

(** ** The parts of the Python runtime the watcher relies on *)

Module Py.

(** Exceptions that the modelled code can raise. [RequestException] is
    [requests.exceptions.RequestException] with its subclasses (timeouts,
    connection errors, HTTP error statuses); [OtherError] stands for any
    other exception leaving [requests.post]. *)
Inductive exn : Type :=
| ValueError
| TypeError
| OverflowError
| AttributeError
| RequestException
| OtherError.

Inductive result (A : Type) : Type :=
| Ok (a : A)
| Raise (e : exn).
Arguments Ok {A} a.
Arguments Raise {A} e.

(** *** binary64 *)

Definition prec : Z := 53.
Definition emax : Z := 1024.

Abbreviation float := spec_float.

Definition float_of_int (n : Z) : float := binary_normalize prec emax n 0 false.

(** [a / b] on two Python ints, [a >= 0] and [b > 0]: the quotient rounded
    once, to nearest even. *)
Definition int_truediv (a : N) (b : positive) : float :=
  match a with
  | N0 => S754_zero false
  | Npos a' =>
      let '(mz, ez, lz) := SFdiv_core_binary prec emax (Zpos a') 0 (Zpos b) 0 in
      binary_round_aux prec emax false mz ez lz
  end.

Definition float_mul (x y : float) : float := SFmul prec emax x y.

(** [x > y] on floats. *)
Definition float_gt (x y : float) : bool := SFltb y x.

(** [int(x)] on a float: truncation toward zero. *)
Definition float_trunc (x : float) : result Z :=
  match x with
  | S754_zero _ => Ok 0
  | S754_nan => Raise ValueError
  | S754_infinity _ => Raise OverflowError
  | S754_finite s m e =>
      let a := if 0 <=? e then Zpos m * 2 ^ e else Zpos m / 2 ^ (- e) in
      Ok (if s then - a else a)
  end.

(** [round(x, 2)]: the decimal with two fractional digits nearest to the
    exact value of [x] (ties to the even last digit), converted back to the
    nearest float. *)
Definition round2 (x : float) : float :=
  match x with
  | S754_finite s m e =>
      if 0 <=? e then x
      else
        let num := 100 * Zpos m in
        let den := 2 ^ (- e) in
        let q := num / den in
        let r := num mod den in
        let n :=
          if 2 * r <? den then q
          else if den <? 2 * r then q + 1
          else if Z.even q then q else q + 1 in
        match n with
        | Zpos p =>
            let '(mz, ez, lz) := SFdiv_core_binary prec emax (Zpos p) 0 100 0 in
            binary_round_aux prec emax s mz ez lz
        | _ => S754_zero s
        end
  | _ => x
  end.

(** *** str *)

Definition code (c : ascii) : N := N_of_ascii c.

(** [str.isspace] on one character. *)
Definition is_space (c : ascii) : bool :=
  let n := code c in
  ((9 <=? n) && (n <=? 13) || (28 <=? n) && (n <=? 32)
   || (n =? 133) || (n =? 160))%N.

Definition lower_char (c : ascii) : ascii :=
  let n := code c in
  if ((65 <=? n) && (n <=? 90)
      || (192 <=? n) && (n <=? 222) && negb (n =? 215))%N
  then ascii_of_N (n + 32) else c.

(** [s.lower()] *)
Fixpoint lower (s : string) : string :=
  match s with
  | EmptyString => EmptyString
  | String c s' => String (lower_char c) (lower s')
  end.

Fixpoint lstrip_chars (cs : list ascii) : list ascii :=
  match cs with
  | c :: cs' => if is_space c then lstrip_chars cs' else cs
  | [] => []
  end.

(** [s.strip()] *)
Definition strip (s : string) : string :=
  string_of_list_ascii
    (rev (lstrip_chars (rev (lstrip_chars (list_ascii_of_string s))))).

(** Truth value of a [str]. *)
Definition str_truthy (s : string) : bool :=
  match s with EmptyString => false | _ => true end.

(** Truth value of an [Optional[str]]. *)
Definition opt_truthy (o : option string) : bool :=
  match o with Some s => str_truthy s | None => false end.

(** *** int(str) *)

(** White space that [int] skips around the literal. *)
Definition is_int_space (c : ascii) : bool :=
  let n := code c in
  ((9 <=? n) && (n <=? 13) || (n =? 32) || (n =? 133) || (n =? 160))%N.

Definition digit_val (c : ascii) : option Z :=
  let n := code c in
  if ((48 <=? n) && (n <=? 57))%N then Some (Z.of_N n - 48) else None.

(** The rest of a literal after at least one digit: digits, single
    underscores between digits, then white space up to the end. *)
Fixpoint int_digits (acc : Z) (cs : list ascii) : option Z :=
  match cs with
  | [] => Some acc
  | c :: cs' =>
      match digit_val c with
      | Some d => int_digits (10 * acc + d) cs'
      | None =>
          if (code c =? 95)%N then
            match cs' with
            | c2 :: cs'' =>
                match digit_val c2 with
                | Some d => int_digits (10 * acc + d) cs''
                | None => None
                end
            | [] => None
            end
          else if forallb is_int_space cs then Some acc else None
      end
  end.

Definition int_unsigned (cs : list ascii) : option Z :=
  match cs with
  | c :: cs' =>
      match digit_val c with
      | Some d => int_digits d cs'
      | None => None
      end
  | [] => None
  end.

Fixpoint skip_int_space (cs : list ascii) : list ascii :=
  match cs with
  | c :: cs' => if is_int_space c then skip_int_space cs' else cs
  | [] => []
  end.

(** [int(s)] for a [str], base ten; [None] is [ValueError]. *)
Definition int_of_str (s : string) : option Z :=
  match skip_int_space (list_ascii_of_string s) with
  | c :: cs' =>
      if (code c =? 45)%N then Z.opp <$> int_unsigned cs'
      else if (code c =? 43)%N then int_unsigned cs'
      else int_unsigned (c :: cs')
  | [] => None
  end.

(** *** Values decoded by [json.loads] *)

#[warnings="-register-all"]
Inductive value : Type :=
| PyNone
| PyBool (b : bool)
| PyInt (n : Z)
| PyFloat (x : float)
| PyStr (s : string)
| PyList (l : list value)
| PyDict (d : list (string * value)).

(** [int(v)] *)
Definition int (v : value) : result Z :=
  match v with
  | PyInt n => Ok n
  | PyBool b => Ok (if b then 1 else 0)
  | PyFloat x => float_trunc x
  | PyStr s =>
      match int_of_str s with
      | Some n => Ok n
      | None => Raise ValueError
      end
  | PyNone | PyList _ | PyDict _ => Raise TypeError
  end.

(** [v.lower()]: only [str] has the attribute. *)
Definition lower_method (v : value) : result string :=
  match v with
  | PyStr s => Ok (lower s)
  | _ => Raise AttributeError
  end.

(** *** collections.deque(maxlen=n) *)

(** [d.append(x)] on a deque bounded by [maxlen]: the item is added on the
    right and, if the bound is exceeded, one item is dropped on the left. *)
Definition deque_append {A : Type} (maxlen : nat) (d : list A) (x : A) : list A :=
  let d' := d ++ [x] in
  if (maxlen <? length d')%nat then tail d' else d'.

End Py.


(** ** AlertManager: alert cooldowns (lines 24-46) *)

Module AlertManager.

Record t : Type := mk {
  cooldown_seconds : Z;
  last_alerts : gmap string Z
}.

(** [AlertManager(cooldown_seconds)] *)
Definition init (cooldown_seconds : Z) : t :=
  {| cooldown_seconds := cooldown_seconds; last_alerts := ∅ |}.

(** [timedelta(seconds=self.cooldown_seconds)], in microseconds. *)
Definition cooldown (self : t) : Z := cooldown_seconds self * 1000000.

(** [should_alert(alert_type)], where [now] is what [datetime.now()] returns
    inside the call. *)
Definition should_alert (now : Z) (alert_type : string) (self : t) : bool * t :=
  match last_alerts self !! alert_type with
  | None =>
      (true, {| cooldown_seconds := cooldown_seconds self;
                last_alerts := <[alert_type := now]> (last_alerts self) |})
  | Some last_time =>
      if cooldown self <? now - last_time then
        (true, {| cooldown_seconds := cooldown_seconds self;
                  last_alerts := <[alert_type := now]> (last_alerts self) |})
      else (false, self)
  end.

End AlertManager.

(** ** PoolTracker: the serving pool and its changes (lines 48-73) *)

Module PoolTracker.

Record t : Type := mk {
  current_pool : option string;
  last_seen_pools : list string
}.

Definition init : t := {| current_pool := None; last_seen_pools := [] |}.

(** [pool in ['blue', 'green']] *)
Definition valid_pool (pool : string) : bool :=
  (String.eqb pool "blue" || String.eqb pool "green")%bool.

(** [update_pool(pool)] *)
Definition update_pool (pool : option string) (self : t) : option string * t :=
  match pool with
  | None => (None, self)
  | Some p =>
      if negb (Py.str_truthy p) then (None, self)
      else
        let previous_pool := current_pool self in
        if valid_pool p then
          let self' :=
            {| current_pool := Some p;
               last_seen_pools := Py.deque_append 10 (last_seen_pools self) p |} in
          if (Py.opt_truthy previous_pool
              && negb (bool_decide (previous_pool = Some p)))%bool
          then (previous_pool, self')
          else (None, self')
        else (None, self)
  end.

End PoolTracker.

(** ** ErrorRateMonitor: error rate over a sliding window (lines 75-112) *)

Module ErrorRateMonitor.

Record t : Type := mk {
  window_size : nat;
  threshold_percent : Py.float;
  requests : list Z
}.

(** [ErrorRateMonitor(window_size, threshold_percent)]; a negative
    [window_size] is refused by [deque], so the capacity is a [nat]. *)
Definition init (window_size : nat) (threshold_percent : Py.float) : t :=
  {| window_size := window_size;
     threshold_percent := threshold_percent;
     requests := [] |}.

(** [sum(1 for status in self.requests if status >= 500)] *)
Definition error_count (requests : list Z) : nat :=
  length (filter (fun status => 500 <= status) requests).

(** [(error_count / len(self.requests)) * 100]; both callers evaluate it on
    a window that is not empty. *)
Definition error_rate (requests : list Z) : Py.float :=
  Py.float_mul
    (Py.int_truediv (N.of_nat (error_count requests))
                    (Pos.of_nat (length requests)))
    (Py.float_of_int 100).

(** [add_request(status_code)] *)
Definition add_request (status_code : Z) (self : t) : bool * t :=
  let self' :=
    {| window_size := window_size self;
       threshold_percent := threshold_percent self;
       requests := Py.deque_append (window_size self) (requests self) status_code |} in
  if (length (requests self') <? 50)%nat then (false, self')
  else (Py.float_gt (error_rate (requests self')) (threshold_percent self'), self').

Record stats : Type := mk_stats {
  total : nat;
  errors : nat;
  rate : Py.float
}.

(** [get_current_stats()]; the key ["error_rate"] is the field [rate]. *)
Definition get_current_stats (self : t) : stats :=
  match requests self with
  | [] => {| total := 0; errors := 0; rate := S754_zero false |}
  | _ =>
      {| total := length (requests self);
         errors := error_count (requests self);
         rate := Py.round2 (error_rate (requests self)) |}
  end.

End ErrorRateMonitor.

(** ** Effects of the watcher: log records, webhook posts, exceptions *)

Module Eff.

(** What an alert carries to Slack. The text of the message is a function of
    these data and of the clock, and is not modelled further. *)
Inductive message : Type :=
| FailoverAlert (previous_pool current_pool : string)
| ErrorRateAlert (stats : ErrorRateMonitor.stats).

(** What the process emits, in order. *)
Inductive output : Type :=
| WarningHighErrorRate (stats : ErrorRateMonitor.stats)
| WarningFailover (previous_pool pool : string)
| Post (m : message)
| InfoSlackSent
| ErrorSlackFailed
| ErrorProcessing (e : Py.exn).

(** Outcome of [requests.post] followed by [raise_for_status]:
    [PostFailed] is a [RequestException] (timeout, connection error, HTTP
    error status), [PostCrashed] any other exception. *)
Inductive post_result : Type :=
| PostOk
| PostFailed
| PostCrashed.

(** State, exception and output: a computation runs from a state and yields
    a value or an exception, the state it leaves and what it emitted. *)
Definition M (S A : Type) : Type := S -> Py.result A * S * list output.

Definition ret {S A : Type} (a : A) : M S A := fun s => (Py.Ok a, s, []).

Definition bind {S A B : Type} (m : M S A) (k : A -> M S B) : M S B :=
  fun s =>
    match m s with
    | (Py.Ok a, s', out) =>
        let '(r, s'', out') := k a s' in (r, s'', out ++ out')
    | (Py.Raise e, s', out) => (Py.Raise e, s', out)
    end.

Definition raise {S A : Type} (e : Py.exn) : M S A := fun s => (Py.Raise e, s, []).

Definition emit {S : Type} (o : output) : M S unit := fun s => (Py.Ok tt, s, [o]).

Definition get {S : Type} : M S S := fun s => (Py.Ok s, s, []).

Definition of_result {S A : Type} (r : Py.result A) : M S A :=
  match r with
  | Py.Ok a => ret a
  | Py.Raise e => raise e
  end.

(** [try: body except C as e: handler(e)], where [catches] tells which
    exceptions are instances of the class [C]. *)
Definition try_except {S A : Type} (catches : Py.exn -> bool)
    (body : M S A) (handler : Py.exn -> M S A) : M S A :=
  fun s =>
    match body s with
    | (Py.Ok a, s', out) => (Py.Ok a, s', out)
    | (Py.Raise e, s', out) =>
        if catches e then
          let '(r, s'', out') := handler e s' in (r, s'', out ++ out')
        else (Py.Raise e, s', out)
    end.

(** Every modelled exception derives from [Exception]. *)
Definition is_Exception (e : Py.exn) : bool := true.

Definition is_RequestException (e : Py.exn) : bool :=
  match e with Py.RequestException => true | _ => false end.

(** [if c: body] *)
Definition when {S : Type} (c : bool) (body : M S unit) : M S unit :=
  if c then body else ret tt.

Declare Scope eff_scope.
Delimit Scope eff_scope with eff.
Bind Scope eff_scope with M.

Notation "'let*' x := m 'in' k" := (bind m (fun x => k))
  (at level 10, x name, m at level 100, k at level 200) : eff_scope.
Notation "m1 ;; m2" := (bind m1 (fun _ => m2))
  (at level 100, m2 at level 200, right associativity) : eff_scope.

End Eff.

(** ** SlackNotifier (lines 114-218) *)

Module SlackNotifier.
Import Eff.
Local Open Scope eff_scope.

Record t : Type := mk { webhook_url : string }.

(** [_send_message(message)], where [r] is the outcome of the post. *)
Definition _send_message {S : Type} (message : message) (r : post_result) : M S unit :=
  try_except is_RequestException
    (emit (Post message) ;;
     match r with
     | PostOk => emit InfoSlackSent
     | PostFailed => raise Py.RequestException
     | PostCrashed => raise Py.OtherError
     end)
    (fun _ => emit ErrorSlackFailed).

(** [send_failover_alert(previous_pool, current_pool)] *)
Definition send_failover_alert {S : Type} (previous_pool current_pool : string)
    (r : post_result) : M S unit :=
  _send_message (FailoverAlert previous_pool current_pool) r.

(** [send_error_rate_alert(stats)] *)
Definition send_error_rate_alert {S : Type} (stats : ErrorRateMonitor.stats)
    (r : post_result) : M S unit :=
  _send_message (ErrorRateAlert stats) r.

End SlackNotifier.

(** ** LogWatcher (lines 220-305) *)

Module LogWatcher.
Import Eff.
Local Open Scope eff_scope.

Record t : Type := mk {
  alert_manager : AlertManager.t;
  pool_tracker : PoolTracker.t;
  error_monitor : ErrorRateMonitor.t;
  slack_notifier : option SlackNotifier.t
}.

(** [LogWatcher()], with the four environment variables as arguments. *)
Definition init (slack_webhook : option string) (error_threshold : Py.float)
    (window_size : nat) (cooldown_seconds : Z) : t :=
  {| alert_manager := AlertManager.init cooldown_seconds;
     pool_tracker := PoolTracker.init;
     error_monitor := ErrorRateMonitor.init window_size error_threshold;
     slack_notifier :=
       match slack_webhook with
       | Some url =>
           if Py.str_truthy url then Some (SlackNotifier.mk url) else None
       | None => None
       end |}.

(** What the environment answers while one entry is processed: the clock
    read by each [should_alert] call and the outcome of each post. *)
Record env : Type := mk_env {
  now_error_rate : Z;
  post_error_rate : post_result;
  now_failover : Z;
  post_failover : post_result
}.

(** Method calls on the three trackers, as steps of the watcher. *)
Definition add_request (status_code : Z) : M t bool :=
  fun self =>
    let '(r, m) := ErrorRateMonitor.add_request status_code (error_monitor self) in
    (Py.Ok r,
     {| alert_manager := alert_manager self; pool_tracker := pool_tracker self;
        error_monitor := m; slack_notifier := slack_notifier self |}, []).

Definition should_alert (now : Z) (alert_type : string) : M t bool :=
  fun self =>
    let '(r, a) := AlertManager.should_alert now alert_type (alert_manager self) in
    (Py.Ok r,
     {| alert_manager := a; pool_tracker := pool_tracker self;
        error_monitor := error_monitor self; slack_notifier := slack_notifier self |}, []).

Definition update_pool (pool : option string) : M t (option string) :=
  fun self =>
    let '(r, p) := PoolTracker.update_pool pool (pool_tracker self) in
    (Py.Ok r,
     {| alert_manager := alert_manager self; pool_tracker := p;
        error_monitor := error_monitor self; slack_notifier := slack_notifier self |}, []).

Definition get_current_stats : M t ErrorRateMonitor.stats :=
  fun self => (Py.Ok (ErrorRateMonitor.get_current_stats (error_monitor self)), self, []).

(** Lines 261-267: error rate tracking. *)
Definition track_error_rate (e : env) (status_code : Z) : M t unit :=
  when (0 <? status_code)
    (let* breach := add_request status_code in
     when breach
       (let* fire := should_alert (now_error_rate e) "error_rate" in
        when fire
          (let* stats := get_current_stats in
           emit (WarningHighErrorRate stats) ;;
           let* self := get in
           when (bool_decide (is_Some (slack_notifier self)))
             (SlackNotifier.send_error_rate_alert stats (post_error_rate e))))).

(** Lines 270-276: pool change tracking. *)
Definition track_pool (e : env) (pool : string) : M t unit :=
  when (Py.str_truthy pool)
    (let* previous_pool := update_pool (Some pool) in
     match previous_pool with
     | Some previous =>
         when (Py.str_truthy previous)
           (let* fire := should_alert (now_failover e) "failover" in
            when fire
              (emit (WarningFailover previous pool) ;;
               let* self := get in
               when (bool_decide (is_Some (slack_notifier self)))
                 (SlackNotifier.send_failover_alert previous pool (post_failover e))))
     | None => ret tt
     end).

(** [entry.get(key, default)] *)
Definition dict_get (entry : gmap string Py.value) (key : string)
    (default : Py.value) : Py.value :=
  match entry !! key with
  | Some v => v
  | None => default
  end.

(** [process_log_entry(entry)]. The field [upstream_status] is read with a
    default and never used; reading it cannot raise. *)
Definition process_log_entry (entry : gmap string Py.value) (e : env) : M t unit :=
  try_except is_Exception
    (let* status_code := of_result (Py.int (dict_get entry "status" (Py.PyInt 0))) in
     let* lowered := of_result (Py.lower_method (dict_get entry "pool" (Py.PyStr ""))) in
     let pool := Py.strip lowered in
     track_error_rate e status_code ;;
     track_pool e pool)
    (fun exc => emit (ErrorProcessing exc)).

(** The inner loop of [tail_log_file] over the entries decoded from the
    lines read so far, each with the environment it is processed in: an
    entry goes to [process_log_entry] when it is truthy (not the empty
    dict). The state after the loop and everything emitted. No exception
    leaves [process_log_entry], so the handlers of [tail_log_file] are not
    reached from it. *)
Fixpoint process_entries (entries : list (gmap string Py.value * env)) (self : t)
    : t * list output :=
  match entries with
  | [] => (self, [])
  | (entry, e) :: rest =>
      if bool_decide (entry = ∅) then process_entries rest self
      else
        let '(_, self', out) := process_log_entry entry e self in
        let '(self'', out') := process_entries rest self' in
        (self'', out ++ out')
  end.

End LogWatcher.

(** ** Sequences of calls *)

Module Runs.

(** [add_request] called on each status code in turn: the values returned
    and the monitor left. *)
Fixpoint add_requests (codes : list Z) (m : ErrorRateMonitor.t)
    : list bool * ErrorRateMonitor.t :=
  match codes with
  | [] => ([], m)
  | c :: codes' =>
      let '(r, m') := ErrorRateMonitor.add_request c m in
      let '(rs, m'') := add_requests codes' m' in
      (r :: rs, m'')
  end.

(** [update_pool] called on each pool name in turn. *)
Fixpoint update_pools (pools : list string) (p : PoolTracker.t)
    : list (option string) * PoolTracker.t :=
  match pools with
  | [] => ([], p)
  | x :: pools' =>
      let '(r, p') := PoolTracker.update_pool (Some x) p in
      let '(rs, p'') := update_pools pools' p' in
      (r :: rs, p'')
  end.

(** The last [n] items of a list. *)
Definition lastn {A : Type} (n : nat) (l : list A) : list A :=
  drop (length l - n) l.

(** The two pool identities. *)
Definition valid_identity (p : string) : Prop := p = "blue" \/ p = "green".

(** Alert intents among the emitted records, by kind: the warning logged
    when an alert is decided and the post that carries it to Slack. *)
Definition is_error_rate_alert (o : Eff.output) : bool :=
  match o with
  | Eff.WarningHighErrorRate _ | Eff.Post (Eff.ErrorRateAlert _) => true
  | _ => false
  end.

Definition is_failover_alert (o : Eff.output) : bool :=
  match o with
  | Eff.WarningFailover _ _ | Eff.Post (Eff.FailoverAlert _ _) => true
  | _ => false
  end.

(** The state a computation of the watcher leaves and what it emits. *)
Definition state_of {A : Type} (x : Py.result A * LogWatcher.t * list Eff.output)
    : LogWatcher.t := x.1.2.
Definition outputs_of {A : Type} (x : Py.result A * LogWatcher.t * list Eff.output)
    : list Eff.output := x.2.

(** The cooldown of [kind] is [c] seconds and runs from [t0]. *)
Definition cooling (kind : string) (c t0 : Z) (w : LogWatcher.t) : Prop :=
  AlertManager.cooldown_seconds (LogWatcher.alert_manager w) = c
  /\ AlertManager.last_alerts (LogWatcher.alert_manager w) !! kind = Some t0.

(** The window bound, for a capacity below the floor of 50 samples. *)
Definition small_window (w : LogWatcher.t) : Prop :=
  (length (ErrorRateMonitor.requests (LogWatcher.error_monitor w))
   <= ErrorRateMonitor.window_size (LogWatcher.error_monitor w))%nat
  /\ (ErrorRateMonitor.window_size (LogWatcher.error_monitor w) < 50)%nat.

(** The error rate of a window of [n] entries of which [k] are errors. *)
Definition rate_of (k n : nat) : Py.float :=
  Py.float_mul (Py.int_truediv (N.of_nat k) (Pos.of_nat n)) (Py.float_of_int 100).

(** For every window length from [lo] to [lo + len - 1] and every count of
    errors in it, the comparison of the binary64 rate with 2.0 is the
    comparison of [100 * k] with [2 * n] on integers. *)
Definition exact_at_two_percent (lo len : nat) : bool :=
  forallb
    (fun n =>
       forallb
         (fun k =>
            Bool.eqb (Py.float_gt (rate_of k n) (Py.float_of_int 2))
                     (2 * Z.of_nat n <? 100 * Z.of_nat k))
         (seq 0 (S n)))
    (seq lo len).

End Runs.

(** ** The defaulting reading of the error handling *)

Module Defaulting.
Import Eff.
Local Open Scope eff_scope.






End Defaulting.

(** ** Sample states and entries *)

Module Samples.

Definition two_percent : Py.float := Py.float_of_int 2.

(** A window of 99 entries, three of them 503. *)
Definition window_99 : ErrorRateMonitor.t :=
  {| ErrorRateMonitor.window_size := 200;
     ErrorRateMonitor.threshold_percent := two_percent;
     ErrorRateMonitor.requests := [503; 503; 503] ++ repeat 200 96 |}.

(** The watcher as [main] builds it with the default configuration and a
    webhook. *)
Definition watcher : LogWatcher.t :=
  LogWatcher.init (Some "https://hooks.slack.test/T0") two_percent 200 300.

Definition quiet : LogWatcher.env :=
  {| LogWatcher.now_error_rate := 0; LogWatcher.post_error_rate := Eff.PostOk;
     LogWatcher.now_failover := 0; LogWatcher.post_failover := Eff.PostOk |}.


(** [{"pool": "yellow"}] *)
Definition entry_yellow : gmap string Py.value :=
  <["pool" := Py.PyStr "yellow"]> ∅.

(** [{"status": 503, "pool": "blue"}] *)
Definition entry_503 : gmap string Py.value :=
  <["status" := Py.PyInt 503]> (<["pool" := Py.PyStr "blue"]> ∅).

(** [{"status": 200, "pool": "blue"}] *)
Definition entry_200 : gmap string Py.value :=
  <["status" := Py.PyInt 200]> (<["pool" := Py.PyStr "blue"]> ∅).

(** [{"pool": "Blue "}] and [{"pool": "GREEN"}] *)
Definition entry_blue : gmap string Py.value := <["pool" := Py.PyStr "Blue "]> ∅.
Definition entry_green : gmap string Py.value := <["pool" := Py.PyStr "GREEN"]> ∅.

(** The clock reads [now] and every post fails. *)
Definition failing (now : Z) : LogWatcher.env :=
  {| LogWatcher.now_error_rate := now; LogWatcher.post_error_rate := Eff.PostFailed;
     LogWatcher.now_failover := now; LogWatcher.post_failover := Eff.PostFailed |}.

(** The default watcher after 49 requests answered 503. *)
Definition watcher_49 : LogWatcher.t :=
  {| LogWatcher.alert_manager := LogWatcher.alert_manager watcher;
     LogWatcher.pool_tracker := LogWatcher.pool_tracker watcher;
     LogWatcher.error_monitor :=
       ErrorRateMonitor.mk 200 two_percent (repeat 503 49);
     LogWatcher.slack_notifier := LogWatcher.slack_notifier watcher |}.


End Samples.

(** ** Runs of the trackers on arbitrary inputs *)

Module Traces.

(** [should_alert] called for each kind at each clock reading in turn: the
    answers and the manager left. *)
Fixpoint should_alerts (calls : list (Z * string)) (a : AlertManager.t)
    : list bool * AlertManager.t :=
  match calls with
  | [] => ([], a)
  | (now, kind) :: calls' =>
      let '(r, a') := AlertManager.should_alert now kind a in
      let '(rs, a'') := should_alerts calls' a' in
      (r :: rs, a'')
  end.

(** The clock readings of the calls for [kind] that were answered [True]. *)
Fixpoint fired (kind : string) (calls : list (Z * string)) (answers : list bool)
    : list Z :=
  match calls, answers with
  | (now, k) :: calls', r :: answers' =>
      if (bool_decide (k = kind) && r)%bool
      then now :: fired kind calls' answers'
      else fired kind calls' answers'
  | _, _ => []
  end.

(** Each reading exceeds the one before it by more than [c]. *)
Fixpoint spaced (c : Z) (times : list Z) : Prop :=
  match times with
  | t :: rest =>
      match rest with
      | t' :: _ => c < t' - t
      | [] => True
      end /\ spaced c rest
  | [] => True
  end.

(** The times to compare for [kind]: the one recorded at the start, if any,
    then those of the calls answered [True]. *)
Definition granted_times (kind : string) (calls : list (Z * string))
    (a : AlertManager.t) : list Z :=
  match AlertManager.last_alerts a !! kind with
  | Some t0 => t0 :: fired kind calls (should_alerts calls a).1
  | None => fired kind calls (should_alerts calls a).1
  end.

(** [update_pool] called on each argument in turn, present or not, valid or
    not. *)
Fixpoint update_pool_calls (inputs : list (option string)) (p : PoolTracker.t)
    : list (option string) * PoolTracker.t :=
  match inputs with
  | [] => ([], p)
  | x :: inputs' =>
      let '(r, p') := PoolTracker.update_pool x p in
      let '(rs, p'') := update_pool_calls inputs' p' in
      (r :: rs, p'')
  end.

(** The arguments that [update_pool] accepts. *)
Definition accepted (inputs : list (option string)) : list string :=
  omap (fun x =>
          match x with
          | Some s => if PoolTracker.valid_pool s then Some s else None
          | None => None
          end) inputs.

(** The pools left behind along a sequence of accepted names that starts
    with the pool [current]: the left one of each two neighbours that
    differ. *)
Fixpoint changes (current : option string) (names : list string) : list string :=
  match names with
  | [] => []
  | p :: names' =>
      match current with
      | Some q =>
          if bool_decide (q = p) then changes (Some p) names'
          else q :: changes (Some p) names'
      | None => changes (Some p) names'
      end
  end.

(** What [update_pool] keeps true of a tracker. *)
Definition pool_inv (t : PoolTracker.t) : Prop :=
  PoolTracker.current_pool t = last (PoolTracker.last_seen_pools t)
  /\ (length (PoolTracker.last_seen_pools t) <= 10)%nat
  /\ Forall Runs.valid_identity (PoolTracker.last_seen_pools t).

(** A threshold that is not below zero: zero, a positive number, positive
    infinity or NaN. *)
Definition not_negative (th : Py.float) : Prop :=
  match th with
  | S754_finite true _ _ | S754_infinity true => False
  | _ => True
  end.

(** The status that [process_log_entry] hands to [add_request], if any. *)
Definition counted_status (entry : gmap string Py.value) : option Z :=
  match Py.int (LogWatcher.dict_get entry "status" (Py.PyInt 0)),
        Py.lower_method (LogWatcher.dict_get entry "pool" (Py.PyStr "")) with
  | Py.Ok status_code, Py.Ok _ => if 0 <? status_code then Some status_code else None
  | _, _ => None
  end.

(** The pool that [process_log_entry] hands to [update_pool], if any. *)
Definition tracked_pool (entry : gmap string Py.value) : option string :=
  match Py.int (LogWatcher.dict_get entry "status" (Py.PyInt 0)),
        Py.lower_method (LogWatcher.dict_get entry "pool" (Py.PyStr "")) with
  | Py.Ok _, Py.Ok lowered =>
      if Py.str_truthy (Py.strip lowered) then Some (Py.strip lowered) else None
  | _, _ => None
  end.

(** Records that only the Slack notifier emits. *)
Definition is_slack_record (o : Eff.output) : bool :=
  match o with
  | Eff.Post _ | Eff.InfoSlackSent | Eff.ErrorSlackFailed => true
  | _ => false
  end.

(** The configuration a watcher was built with. *)
Definition config (w : LogWatcher.t)
    : Z * nat * Py.float * option SlackNotifier.t :=
  (AlertManager.cooldown_seconds (LogWatcher.alert_manager w),
   ErrorRateMonitor.window_size (LogWatcher.error_monitor w),
   ErrorRateMonitor.threshold_percent (LogWatcher.error_monitor w),
   LogWatcher.slack_notifier w).

(** The window holds at most [window_size] codes. *)
Definition window_bounded (w : LogWatcher.t) : Prop :=
  (length (ErrorRateMonitor.requests (LogWatcher.error_monitor w))
   <= ErrorRateMonitor.window_size (LogWatcher.error_monitor w))%nat.

End Traces.

(** ** Lines of the log: [parse_log_line] and the body of the reading loop
    (lines 243-250 and 291-296) *)

Module Tail.

(** What [json.loads(line.strip())] does on a line: it returns a value,
    raises [json.JSONDecodeError], or raises something else (a
    [RecursionError] on deeply nested input). *)
Inductive decoded : Type :=
| Decoded (v : Py.value)
| JSONDecodeError
| DecoderCrashed.

(** What the process emits at this level: the records of
    [process_log_entry], the debug record of [parse_log_line] and the error
    record of the handler around the reading loop. *)
Inductive record : Type :=
| Core (o : Eff.output)
| DebugParseFailed
| ErrorReadingLogFile.

(** Truth value of a decoded value. *)
Definition truthy (v : Py.value) : bool :=
  match v with
  | Py.PyNone => false
  | Py.PyBool b => b
  | Py.PyInt n => negb (n =? 0)
  | Py.PyFloat x => match x with S754_zero _ => false | _ => true end
  | Py.PyStr s => Py.str_truthy s
  | Py.PyList l => match l with [] => false | _ => true end
  | Py.PyDict d => match d with [] => false | _ => true end
  end.

(** The dict built from the pairs of a JSON object, in order: a later pair
    replaces an earlier one with the same key. *)
Definition dict_of_items (items : list (string * Py.value)) : gmap string Py.value :=
  foldl (fun m kv => <[kv.1 := kv.2]> m) ∅ items.

(** [parse_log_line(line)]: the value decoded, [None] with a debug record
    when the line is not JSON. *)
Definition parse_log_line (d : decoded) : Py.result Py.value * list record :=
  match d with
  | Decoded v => (Py.Ok v, [])
  | JSONDecodeError => (Py.Ok Py.PyNone, [DebugParseFailed])
  | DecoderCrashed => (Py.Raise Py.OtherError, [])
  end.

(** [process_log_entry(entry)] on any decoded value: only a dict has the
    method [get], on anything else the first line of the [try] block raises
    [AttributeError]. *)
Definition process_log_entry (entry : Py.value) (e : LogWatcher.env)
    : Eff.M LogWatcher.t unit :=
  match entry with
  | Py.PyDict items => LogWatcher.process_log_entry (dict_of_items items) e
  | _ =>
      Eff.try_except Eff.is_Exception
        (Eff.raise Py.AttributeError)
        (fun exc => Eff.emit (Eff.ErrorProcessing exc))
  end.

(** One line read by the loop of [tail_log_file] (lines 292-296), with the
    [except Exception] clause around the loop for what [parse_log_line] lets
    through. *)
Definition handle_line (d : decoded) (e : LogWatcher.env) (self : LogWatcher.t)
    : LogWatcher.t * list record :=
  match parse_log_line d with
  | (Py.Ok entry, out) =>
      if truthy entry then
        let '(_, self', out') := process_log_entry entry e self in
        (self', out ++ map Core out')
      else (self, out)
  | (Py.Raise _, out) => (self, out ++ [ErrorReadingLogFile])
  end.

(** The lines read one after the other: those that [readline] returned.
    After a crash the loop reopens the file at its end, so what was written
    in between is not among them. *)
Fixpoint handle_lines (lines : list (decoded * LogWatcher.env)) (self : LogWatcher.t)
    : LogWatcher.t * list record :=
  match lines with
  | [] => (self, [])
  | (d, e) :: rest =>
      let '(self', out) := handle_line d e self in
      let '(self'', out') := handle_lines rest self' in
      (self'', out ++ out')
  end.

(** The objects among the lines, as the dicts handed to
    [LogWatcher.process_log_entry]. *)
Definition objects (lines : list (decoded * LogWatcher.env))
    : list (gmap string Py.value * LogWatcher.env) :=
  omap (fun x =>
          match x.1 with
          | Decoded (Py.PyDict items) => Some (dict_of_items items, x.2)
          | _ => None
          end) lines.

Definition is_object (d : decoded) : Prop :=
  exists items, d = Decoded (Py.PyDict items).

End Tail.

(** * Properties *)

(** ** The runtime model against values computed by CPython 3.11 *)

Section PyTests.
Import Py.
Local Open Scope string_scope.

Example int_truediv_3_100 :
  int_truediv 3 100 = S754_finite false 0x1eb851eb851eb8 (-6 - 52).
Proof. vm_compute. reflexivity. Qed.
Example int_truediv_7_100 :
  int_truediv 7 100 = S754_finite false 0x11eb851eb851ec (-4 - 52).
Proof. vm_compute. reflexivity. Qed.
Example int_truediv_big1 :
  int_truediv 100000000000000000001 3 = S754_finite false 0x1ce97ca0f21055 (64 - 52).
Proof. vm_compute. reflexivity. Qed.
Example int_truediv_big2 :
  int_truediv 1152921504606846977 100 = S754_finite false 0x147ae147ae147b (53 - 52).
Proof. vm_compute. reflexivity. Qed.
Example int_truediv_big3 :
  int_truediv 123456789123456789123 977 = S754_finite false 0x1c0ee9b8a5d44c (56 - 52).
Proof. vm_compute. reflexivity. Qed.
Example mul_7_100 :
  float_mul (int_truediv 7 100) (float_of_int 100) = S754_finite false 0x1c000000000001 (2 - 52).
Proof. vm_compute. reflexivity. Qed.
Example round2_a : round2 (S754_finite false 0x15666666666666 (1 - 52)) = S754_finite false 0x155c28f5c28f5c (1 - 52).
Proof. vm_compute. reflexivity. Qed.
Example round2_b : round2 (S754_finite false 0x10aaaaaaaaaaaa (5 - 52)) = S754_finite false 0x10aa3d70a3d70a (5 - 52).
Proof. vm_compute. reflexivity. Qed.
Example round2_c : round2 (S754_finite false 0x10000000000000 (-3 - 52)) = S754_finite false 0x1eb851eb851eb8 (-4 - 52).
Proof. vm_compute. reflexivity. Qed.
Example round2_d : round2 (S754_finite false 0x18000000000000 (-2 - 52)) = S754_finite false 0x1851eb851eb852 (-2 - 52).
Proof. vm_compute. reflexivity. Qed.
Example round2_e : round2 (S754_finite false 0x1c000000000001 (2 - 52)) = S754_finite false 0x1c000000000000 (2 - 52).
Proof. vm_compute. reflexivity. Qed.
Example round2_f : round2 (S754_finite false 0x10147ae147ae14 (0 - 52)) = S754_finite false 0x10000000000000 (0 - 52).
Proof. vm_compute. reflexivity. Qed.
Example round2_g : round2 (S754_finite false 0x18ffae147ae148 (6 - 52)) = S754_finite false 0x19000000000000 (6 - 52).
Proof. vm_compute. reflexivity. Qed.
Example round2_h : round2 (S754_finite false 0x1cbe991a145852 (36 - 52)) = S754_finite false 0x1cbe991a14599a (36 - 52).
Proof. vm_compute. reflexivity. Qed.
Example round2_i : round2 (S754_finite false 0x11c37937e08000 (53 - 52)) = S754_finite false 0x11c37937e08000 (53 - 52).
Proof. vm_compute. reflexivity. Qed.
Example rate_2_62 :
  Runs.rate_of 2 62 = S754_finite false 0x19ce739ce739ce (1 - 52)
  /\ round2 (Runs.rate_of 2 62) = S754_finite false 0x19d70a3d70a3d7 (1 - 52).
Proof. split; vm_compute; reflexivity. Qed.
Example floats_to_int :
  map float_trunc
      [S754_finite false 0x1f333333333333 (1 - 52); S754_finite true 0x1f333333333333 (1 - 52);
       S754_nan; S754_infinity false; S754_zero true]
  = [Ok 3; Ok (-3); Raise ValueError; Raise OverflowError; Ok 0].
Proof. vm_compute. reflexivity. Qed.
Example deque_examples :
  deque_append 0 [] 1 = [] /\ deque_append 2 [3; 4] 5 = [4; 5]
  /\ deque_append 2 [3] 4 = [3; 4].
Proof. repeat split. Qed.
Example ints :
  map int_of_str [" 5 "; "+5"; "-5"; "1_0"; "_1"; "1_"; "1__0"; ""; " "; "+"; "007"; "+ 5"; "0_0"; "-0"; "1 2"; "3.5"; "--5"; "5a"]
  = [Some 5; Some 5; Some (-5); Some 10; None; None; None; None; None; None; Some 7; None; Some 0; Some 0; None; None; None; None].
Proof. vm_compute. reflexivity. Qed.
Example strs :
  map (fun s => strip (lower s)) ["Blue"; "  GREEN "; "yellow"; " b lue"; ""; "   "]
  = ["blue"; "green"; "yellow"; "b lue"; ""; ""].
Proof. vm_compute. reflexivity. Qed.
End PyTests.

(** ** The bounded deque *)

Section Deque.
Context {A : Type}.
Implicit Types (d l : list A) (x : A) (n : nat).

Lemma tail_drop l : tail l = drop 1 l.
Proof. destruct l; reflexivity. Qed.

Lemma deque_append_length n d x :
  (length d <= n)%nat -> (length (Py.deque_append n d x) <= n)%nat.
Proof.
  intros Hd. unfold Py.deque_append.
  destruct (Nat.ltb_spec n (length (d ++ [x]))) as [Hlt | Hge]; [|exact Hge].
  rewrite tail_drop, length_drop, length_app. simpl. lia.
Qed.

Lemma deque_append_room n d x :
  (length d < n)%nat -> Py.deque_append n d x = d ++ [x].
Proof.
  intros Hd. unfold Py.deque_append.
  destruct (Nat.ltb_spec n (length (d ++ [x]))) as [Hlt | Hge]; [|reflexivity].
  rewrite length_app in Hlt. simpl in Hlt. lia.
Qed.

Lemma deque_append_full n d x :
  length d = n -> Py.deque_append n d x = tail (d ++ [x]).
Proof.
  intros Hd. unfold Py.deque_append.
  destruct (Nat.ltb_spec n (length (d ++ [x]))) as [Hlt | Hge]; [reflexivity|].
  rewrite length_app in Hge. simpl in Hge. lia.
Qed.

Lemma lastn_all n l : (length l <= n)%nat -> Runs.lastn n l = l.
Proof.
  intros Hl. unfold Runs.lastn.
  replace (length l - n)%nat with 0%nat by lia. reflexivity.
Qed.

Lemma lastn_length n l : length (Runs.lastn n l) = Nat.min n (length l).
Proof. unfold Runs.lastn. rewrite length_drop. lia. Qed.

(** Appending to the last [n] items and trimming gives the last [n] items
    of the longer list. *)
Lemma deque_append_lastn n l x :
  Py.deque_append n (Runs.lastn n l) x = Runs.lastn n (l ++ [x]).
Proof.
  destruct (Nat.le_gt_cases (length l) n) as [Hle | Hgt].
  - rewrite (lastn_all n l Hle).
    destruct (Nat.eq_dec (length l) n) as [Heq | Hne].
    + rewrite deque_append_full by exact Heq.
      unfold Runs.lastn. rewrite length_app. simpl.
      replace (length l + 1 - n)%nat with 1%nat by lia.
      apply tail_drop.
    + rewrite deque_append_room by lia.
      symmetry. apply lastn_all. rewrite length_app. simpl. lia.
  - rewrite deque_append_full by (rewrite lastn_length; lia).
    rewrite tail_drop. unfold Runs.lastn.
    rewrite length_app. simpl.
    destruct n as [|n].
    + rewrite !Nat.sub_0_r.
      rewrite drop_all. simpl.
      symmetry. apply drop_ge. rewrite length_app. simpl. lia.
    + rewrite drop_app_le by (rewrite length_drop; lia).
      rewrite drop_drop.
      rewrite drop_app_le by lia.
      f_equal. f_equal. lia.
Qed.

End Deque.

(** ** ErrorRateMonitor *)

Section Monitor.
Import ErrorRateMonitor.
Implicit Types (m : t) (s : Z) (codes : list Z).

Lemma add_request_requests s m :
  requests (add_request s m).2 = Py.deque_append (window_size m) (requests m) s.
Proof. unfold add_request. simpl. case (_ <? _)%nat; reflexivity. Qed.

Lemma add_request_window_size s m :
  window_size (add_request s m).2 = window_size m.
Proof. unfold add_request. simpl. case (_ <? _)%nat; reflexivity. Qed.

Lemma add_request_threshold s m :
  threshold_percent (add_request s m).2 = threshold_percent m.
Proof. unfold add_request. simpl. case (_ <? _)%nat; reflexivity. Qed.

(** The value returned, in terms of the window the call leaves. *)
Lemma add_request_result s m :
  (add_request s m).1 =
  if (length (requests (add_request s m).2) <? 50)%nat then false
  else Py.float_gt (error_rate (requests (add_request s m).2)) (threshold_percent m).
Proof.
  unfold add_request. simpl.
  destruct (length (Py.deque_append (window_size m) (requests m) s) <? 50)%nat eqn:E;
    simpl; rewrite E; reflexivity.
Qed.

Lemma add_request_bounded s m :
  (length (requests m) <= window_size m)%nat ->
  (length (requests (add_request s m).2) <= window_size (add_request s m).2)%nat.
Proof.
  intros Hm. rewrite add_request_requests, add_request_window_size.
  apply deque_append_length, Hm.
Qed.

Lemma add_requests_snoc codes s m :
  Runs.add_requests (codes ++ [s]) m =
  ((Runs.add_requests codes m).1 ++ [(add_request s (Runs.add_requests codes m).2).1],
   (add_request s (Runs.add_requests codes m).2).2).
Proof.
  revert m. induction codes as [|c codes IH]; intros m; cbn [Runs.add_requests app fst snd].
  - destruct (add_request s m); reflexivity.
  - destruct (add_request c m) as [r m']. rewrite IH.
    destruct (Runs.add_requests codes m') as [rs m'']. cbn [fst snd].
    destruct (add_request s m''); reflexivity.
Qed.

Lemma add_requests_window_size codes m :
  window_size (Runs.add_requests codes m).2 = window_size m.
Proof.
  induction codes as [|s codes IH] using rev_ind; [reflexivity|].
  rewrite add_requests_snoc. simpl. rewrite add_request_window_size. exact IH.
Qed.

(** After any calls the window holds the last [window_size] status codes. *)
Lemma add_requests_requests codes m :
  (length (requests m) <= window_size m)%nat ->
  requests (Runs.add_requests codes m).2 =
  Runs.lastn (window_size m) (requests m ++ codes).
Proof.
  intros Hm. induction codes as [|s codes IH] using rev_ind.
  - simpl. rewrite app_nil_r. symmetry. apply lastn_all, Hm.
  - rewrite add_requests_snoc. simpl.
    rewrite add_request_requests, add_requests_window_size, IH.
    rewrite app_assoc. apply deque_append_lastn.
Qed.

Lemma add_requests_bounded codes m :
  (length (requests m) <= window_size m)%nat ->
  (length (requests (Runs.add_requests codes m).2) <= window_size m)%nat.
Proof.
  intros Hm. rewrite add_requests_requests by exact Hm.
  rewrite lastn_length. lia.
Qed.

Lemma add_requests_results_false codes m :
  (length (requests m) <= window_size m)%nat ->
  (window_size m < 50)%nat ->
  Forall (fun r => r = false) (Runs.add_requests codes m).1.
Proof.
  intros Hm HW. induction codes as [|s codes IH] using rev_ind.
  - constructor.
  - rewrite add_requests_snoc. simpl.
    apply Forall_app. split; [exact IH|].
    constructor; [|constructor].
    rewrite add_request_result.
    pose proof (add_requests_bounded codes m Hm) as Hb.
    pose proof (add_request_bounded s (Runs.add_requests codes m).2) as Hb'.
    rewrite add_request_window_size, add_requests_window_size in Hb'.
    specialize (Hb' Hb).
    destruct (Nat.ltb_spec (length (requests (add_request s (Runs.add_requests codes m).2).2)) 50);
      [reflexivity|lia].
Qed.

Lemma error_count_le (l : list Z) : (error_count l <= length l)%nat.
Proof. unfold error_count. apply length_filter. Qed.

Lemma error_rate_rate_of (l : list Z) :
  error_rate l = Runs.rate_of (error_count l) (length l).
Proof. reflexivity. Qed.

Lemma exact_at_two_percent_spec (lo len k n : nat) :
  Runs.exact_at_two_percent lo len = true ->
  (lo <= n < lo + len)%nat -> (k <= n)%nat ->
  Py.float_gt (Runs.rate_of k n) (Py.float_of_int 2)
  = (2 * Z.of_nat n <? 100 * Z.of_nat k).
Proof.
  intros H Hn Hk. unfold Runs.exact_at_two_percent in H.
  rewrite forallb_forall in H.
  specialize (H n). rewrite forallb_forall in H.
  apply Bool.eqb_prop, H.
  - apply in_seq. lia.
  - apply in_seq. lia.
Qed.

Lemma exact_at_default_capacity : Runs.exact_at_two_percent 50 151 = true.
Proof. vm_compute. reflexivity. Qed.

(** With threshold 2.0 and a window of 50 to 200 entries, the comparison made
    in binary64 is the exact one. *)
Lemma rate_exact_at_two_percent (k n : nat) :
  (50 <= n <= 200)%nat -> (k <= n)%nat ->
  Py.float_gt (Runs.rate_of k n) (Py.float_of_int 2)
  = (2 * Z.of_nat n <? 100 * Z.of_nat k).
Proof.
  intros Hn Hk.
  apply (exact_at_two_percent_spec 50 151 k n exact_at_default_capacity);
    [lia|exact Hk].
Qed.

(** The comparison in binary64 is not the exact one at every threshold:
    7 errors in 100 entries exceed a threshold of 7.0, because
    [7 / 100 * 100] is rounded to the float above 7. *)
Example rate_rounding_at_seven_percent :
  Py.float_gt (Runs.rate_of 7 100) (Py.float_of_int 7) = true
  /\ (7 * Z.of_nat 100 <? 100 * Z.of_nat 7) = false.
Proof. split; vm_compute; reflexivity. Qed.

End Monitor.

Section MonitorClaims.
Import ErrorRateMonitor.

(** C4. A call of [add_request] that leaves fewer than 50 entries in the
    window returns [False], whatever the status code and the threshold. *)
Theorem add_request_below_floor (s : Z) (m : t) :
  (length (requests (add_request s m).2) < 50)%nat ->
  (add_request s m).1 = false.
Proof.
  intros Hlen. rewrite add_request_result.
  destruct (Nat.ltb_spec (length (requests (add_request s m).2)) 50);
    [reflexivity|lia].
Qed.

Lemma add_request_below_floor_witness :
  (length (requests (add_request 503 (init 200 (Py.float_of_int 2))).2) < 50)%nat
  /\ (add_request 503 (init 200 (Py.float_of_int 2))).1 = false.
Proof.
  split; [vm_compute; lia|].
  apply (add_request_below_floor 503 (init 200 (Py.float_of_int 2))).
  vm_compute. lia.
Defined.



(** C5. The window never holds more than [window_size] entries: every
    [add_request] preserves the bound and every monitor reached from its
    constructor satisfies it. After [window_size + 1] appends the window
    holds exactly the last [window_size] codes, and the statistics are those
    of these codes alone, whatever the first code was. *)
Theorem window_bounded_oldest_evicted :
  (forall (s : Z) (m : t),
      (length (requests m) <= window_size m)%nat ->
      (length (requests (add_request s m).2) <= window_size (add_request s m).2)%nat)
  /\ (forall (W : nat) (th : Py.float) (codes : list Z),
        (length (requests (Runs.add_requests codes (init W th)).2) <= W)%nat)
  /\ (forall (W : nat) (th : Py.float) (x : Z) (xs : list Z),
        length xs = W ->
        let m := (Runs.add_requests (x :: xs) (init W th)).2 in
        length (requests m) = W
        /\ requests m = xs
        /\ get_current_stats m = get_current_stats (mk W th xs)
        /\ forall x' : Z,
            get_current_stats (Runs.add_requests (x' :: xs) (init W th)).2
            = get_current_stats m).
Proof.
  split; [exact add_request_bounded|]. split.
  - intros W th codes.
    apply (add_requests_bounded codes (init W th)). simpl. lia.
  - intros W th x xs Hxs m.
    assert (Hreq : forall y, requests (Runs.add_requests (y :: xs) (init W th)).2 = xs).
    { intros y. rewrite add_requests_requests by (simpl; lia).
      simpl. unfold Runs.lastn. simpl.
      replace (S (length xs) - W)%nat with 1%nat by lia. reflexivity. }
    assert (Hstats : forall y,
               get_current_stats (Runs.add_requests (y :: xs) (init W th)).2
               = get_current_stats (mk W th xs)).
    { intros y. unfold get_current_stats. rewrite (Hreq y). reflexivity. }
    subst m. rewrite (Hreq x). repeat split.
    + exact Hxs.
    + apply Hstats.
    + intros x'. rewrite (Hstats x'), (Hstats x). reflexivity.
Qed.

Lemma window_bounded_oldest_evicted_witness :
  requests (Runs.add_requests [503; 200; 201] (init 2 (Py.float_of_int 2))).2
  = [200; 201].
Proof.
  apply (proj2 (proj2 window_bounded_oldest_evicted)
           2%nat (Py.float_of_int 2) 503 [200; 201]).
  reflexivity.
Defined.

End MonitorClaims.

(** ** AlertManager *)

Section CooldownClaims.
Import AlertManager.

Lemma should_alert_first (kind : string) (now : Z) (a : t) :
  last_alerts a !! kind = None ->
  should_alert now kind a
  = (true, mk (cooldown_seconds a) (<[kind := now]> (last_alerts a))).
Proof. intros Hnone. unfold should_alert. rewrite Hnone. reflexivity. Qed.

Lemma should_alert_later (kind : string) (now last : Z) (a : t) :
  last_alerts a !! kind = Some last ->
  should_alert now kind a
  = if cooldown_seconds a * 1000000 <? now - last
    then (true, mk (cooldown_seconds a) (<[kind := now]> (last_alerts a)))
    else (false, a).
Proof. intros Hsome. unfold should_alert, cooldown. rewrite Hsome. reflexivity. Qed.

(** C3. The first call of [should_alert] for a kind returns [True] and
    records the time of the call. A later call returns [True] exactly when
    the time since the recorded one strictly exceeds the cooldown, and it
    replaces the recorded time exactly then. Hence, for a cooldown that is
    not negative, two calls at the same instant return [True] then [False],
    and a call more than the cooldown later returns [True] again. *)
Theorem should_alert_cooldown (kind : string) (now : Z) (a : t) :
  (last_alerts a !! kind = None ->
   should_alert now kind a
   = (true, mk (cooldown_seconds a) (<[kind := now]> (last_alerts a))))
  /\ (forall last : Z,
        last_alerts a !! kind = Some last ->
        ((should_alert now kind a).1 = true
         <-> cooldown_seconds a * 1000000 < now - last)
        /\ ((should_alert now kind a).1 = true ->
            (should_alert now kind a).2
            = mk (cooldown_seconds a) (<[kind := now]> (last_alerts a)))
        /\ ((should_alert now kind a).1 = false ->
            (should_alert now kind a).2 = a))
  /\ (last_alerts a !! kind = None ->
      0 <= cooldown_seconds a ->
      let a1 := (should_alert now kind a).2 in
      let a2 := (should_alert now kind a1).2 in
      (should_alert now kind a).1 = true
      /\ (should_alert now kind a1).1 = false
      /\ forall later : Z,
          cooldown_seconds a * 1000000 < later - now ->
          (should_alert later kind a2).1 = true).
Proof.
  split; [apply should_alert_first|]. split.
  - intros last Hlast. rewrite (should_alert_later kind now last a Hlast).
    destruct (Z.ltb_spec (cooldown_seconds a * 1000000) (now - last)) as [Hlt | Hge];
      simpl; repeat split; intros; try reflexivity; try discriminate; lia.
  - intros Hnone Hcool a1 a2.
    assert (E1 : should_alert now kind a
                 = (true, mk (cooldown_seconds a) (<[kind := now]> (last_alerts a))))
      by (apply should_alert_first, Hnone).
    assert (H1 : last_alerts a1 !! kind = Some now).
    { subst a1. rewrite E1. simpl. apply lookup_insert_eq. }
    assert (Hc1 : cooldown_seconds a1 = cooldown_seconds a).
    { subst a1. rewrite E1. reflexivity. }
    assert (E2 : should_alert now kind a1 = (false, a1)).
    { rewrite (should_alert_later kind now now a1 H1), Hc1.
      destruct (Z.ltb_spec (cooldown_seconds a * 1000000) (now - now));
        [lia|reflexivity]. }
    split; [rewrite E1; reflexivity|].
    split; [rewrite E2; reflexivity|].
    intros later Hlater. subst a2. rewrite E2. simpl.
    rewrite (should_alert_later kind later now a1 H1), Hc1.
    destruct (Z.ltb_spec (cooldown_seconds a * 1000000) (later - now));
      [reflexivity|lia].
Qed.

Lemma should_alert_cooldown_witness :
  (should_alert 0 "failover" (init 300)).1 = true
  /\ (should_alert 0 "failover" (should_alert 0 "failover" (init 300)).2).1 = false.
Proof.
  assert (H0 : last_alerts (init 300) !! "failover" = None) by reflexivity.
  assert (Hc : 0 <= cooldown_seconds (init 300)) by (simpl; lia).
  pose proof (proj2 (proj2 (should_alert_cooldown "failover" 0 (init 300))) H0 Hc)
    as [H1 [H2 _]].
  split; [exact H1|exact H2].
Defined.

End CooldownClaims.

(** ** PoolTracker *)

Section PoolClaims.
Import PoolTracker.

Lemma valid_pool_spec (p : string) : valid_pool p = true <-> Runs.valid_identity p.
Proof.
  unfold valid_pool, Runs.valid_identity.
  rewrite orb_true_iff, !String.eqb_eq. reflexivity.
Qed.

Lemma valid_identity_truthy (p : string) : Runs.valid_identity p -> Py.str_truthy p = true.
Proof. intros [-> | ->]; reflexivity. Qed.

(** A call with a valid name. *)
Lemma update_pool_valid (p : string) (t : PoolTracker.t) :
  Runs.valid_identity p ->
  update_pool (Some p) t
  = (if (Py.opt_truthy (current_pool t)
         && negb (bool_decide (current_pool t = Some p)))%bool
     then current_pool t else None,
     mk (Some p) (Py.deque_append 10 (last_seen_pools t) p)).
Proof.
  intros Hp. unfold update_pool.
  rewrite (valid_identity_truthy p Hp). simpl.
  rewrite (proj2 (valid_pool_spec p) Hp).
  case (_ && _)%bool; reflexivity.
Qed.

(** A call with anything else. *)
Lemma update_pool_invalid (pool : option string) (t : PoolTracker.t) :
  pool <> Some "blue" -> pool <> Some "green" ->
  update_pool pool t = (None, t).
Proof.
  intros Hb Hg. destruct pool as [p|]; [|reflexivity].
  unfold update_pool.
  destruct (Py.str_truthy p); [|reflexivity]. simpl.
  destruct (valid_pool p) eqn:Hv; [|reflexivity].
  apply valid_pool_spec in Hv. destruct Hv as [-> | ->]; congruence.
Qed.

Lemma update_pools_snoc (ps : list string) (p : string) (t : PoolTracker.t) :
  Runs.update_pools (ps ++ [p]) t =
  ((Runs.update_pools ps t).1 ++ [(update_pool (Some p) (Runs.update_pools ps t).2).1],
   (update_pool (Some p) (Runs.update_pools ps t).2).2).
Proof.
  revert t. induction ps as [|x ps IH]; intros t; cbn [Runs.update_pools app fst snd].
  - destruct (update_pool (Some p) t); reflexivity.
  - destruct (update_pool (Some x) t) as [r t']. rewrite IH.
    destruct (Runs.update_pools ps t') as [rs t'']. cbn [fst snd].
    destruct (update_pool (Some p) t''); reflexivity.
Qed.

(** After valid names only, the tracker holds the last one. *)
Lemma update_pools_current (ps : list string) :
  Forall Runs.valid_identity ps ->
  current_pool (Runs.update_pools ps init).2 = last ps.
Proof.
  induction ps as [|p ps IH] using rev_ind; intros Hps; [reflexivity|].
  apply Forall_app in Hps. destruct Hps as [_ Hp].
  apply Forall_cons in Hp. destruct Hp as [Hp _].
  rewrite update_pools_snoc. cbn [snd].
  rewrite (update_pool_valid p _ Hp). cbn [snd current_pool].
  rewrite last_snoc. reflexivity.
Qed.

(** C1. Along any sequence of calls of [update_pool] with valid names, a
    call returns a previous pool exactly when [current_pool] was set before
    the call and differs from the new name, and what it returns is that
    previous pool. The first call returns nothing, and so does a call that
    repeats the name currently held. *)
Theorem update_pool_reports_change (ps : list string) (p : string) :
  Forall Runs.valid_identity ps ->
  Runs.valid_identity p ->
  let t := (Runs.update_pools ps init).2 in
  let r := (update_pool (Some p) t).1 in
  (is_Some r <-> exists q : string, current_pool t = Some q /\ q <> p)
  /\ (forall q : string, r = Some q -> current_pool t = Some q)
  /\ (ps = [] -> r = None)
  /\ (current_pool t = Some p -> r = None)
  /\ current_pool t = last ps
  /\ current_pool (update_pool (Some p) t).2 = Some p.
Proof.
  intros Hps Hp t r.
  assert (Hcur : current_pool t = last ps) by (apply update_pools_current, Hps).
  assert (Htruthy : forall q, current_pool t = Some q -> Py.str_truthy q = true).
  { intros q Hq. apply valid_identity_truthy.
    rewrite Hcur in Hq. apply last_Some_elem_of in Hq.
    rewrite Forall_forall in Hps. apply Hps, Hq. }
  assert (Hr : r = if (Py.opt_truthy (current_pool t)
                       && negb (bool_decide (current_pool t = Some p)))%bool
                   then current_pool t else None).
  { subst r. rewrite (update_pool_valid p t Hp). reflexivity. }
  assert (Ht' : current_pool (update_pool (Some p) t).2 = Some p).
  { rewrite (update_pool_valid p t Hp). reflexivity. }
  clearbody t r. subst r.
  destruct (current_pool t) as [q|] eqn:Hq.
  - simpl. rewrite (Htruthy q eq_refl). simpl.
    destruct (decide (Some q = Some p)) as [Heq | Hne].
    + rewrite bool_decide_eq_true_2 by exact Heq. simpl.
      inversion Heq; subst q.
      repeat split; try (intros; congruence); try assumption.
      * intros [x Hx]. discriminate.
      * intros [x [Hx Hxp]]. congruence.
    + rewrite bool_decide_eq_false_2 by exact Hne. simpl.
      repeat split; try (intros; congruence); try assumption.
      * intros _. exists q. split; [reflexivity|congruence].
      * intros _. eexists. reflexivity.
      * intros ->. simpl in Hcur. discriminate.
  - simpl. repeat split; try (intros; congruence); try assumption.
    + intros [x Hx]. discriminate.
    + intros [x [Hx _]]. discriminate.
Qed.

Lemma update_pool_reports_change_witness :
  is_Some (update_pool (Some "green") (Runs.update_pools ["blue"] init).2).1
  /\ (update_pool (Some "blue") (Runs.update_pools [] init).2).1 = None.
Proof.
  assert (Hb : Runs.valid_identity "blue") by (left; reflexivity).
  assert (Hg : Runs.valid_identity "green") by (right; reflexivity).
  split.
  - apply (proj1 (update_pool_reports_change ["blue"] "green"
                    (Forall_cons_2 _ _ _ Hb (Forall_nil_2 _)) Hg)).
    exists "blue". split; [reflexivity|discriminate].
  - apply (update_pool_reports_change [] "blue" (Forall_nil_2 _) Hb).
Defined.

(** C8. [update_pool] called with no pool, or with a string that after
    lowering and trimming is neither ["blue"] nor ["green"], changes neither
    [current_pool] nor [last_seen_pools] and returns nothing. *)
Theorem update_pool_ignores_invalid (pool : option string) (t : PoolTracker.t) :
  (pool = None
   \/ exists s : string,
       pool = Some s
       /\ Py.strip (Py.lower s) <> "blue"
       /\ Py.strip (Py.lower s) <> "green") ->
  update_pool pool t = (None, t).
Proof.
  intros [-> | [s [-> [Hb Hg]]]]; [reflexivity|].
  apply update_pool_invalid; intros Heq; inversion Heq; subst s.
  - apply Hb. reflexivity.
  - apply Hg. reflexivity.
Qed.

Lemma update_pool_ignores_invalid_witness :
  update_pool (Some "yellow") (mk (Some "blue") ["blue"])
  = (None, mk (Some "blue") ["blue"]).
Proof.
  apply update_pool_ignores_invalid. right. exists "yellow".
  split; [reflexivity|]. split; vm_compute; discriminate.
Defined.

End PoolClaims.

(** ** LogWatcher: the equations of the per-entry procedure *)

Section WatcherEquations.
Import Eff LogWatcher.

Lemma track_error_rate_eq (e : env) (status_code : Z) (w : t) :
  track_error_rate e status_code w =
  if 0 <? status_code then
    let '(breach, m) := ErrorRateMonitor.add_request status_code (error_monitor w) in
    if breach then
      let '(fire, a) :=
        AlertManager.should_alert (now_error_rate e) "error_rate" (alert_manager w) in
      let w' := mk a (pool_tracker w) m (slack_notifier w) in
      if fire then
        let stats := ErrorRateMonitor.get_current_stats m in
        match slack_notifier w with
        | Some _ =>
            match post_error_rate e with
            | PostOk =>
                (Py.Ok tt, w',
                 [WarningHighErrorRate stats; Post (ErrorRateAlert stats); InfoSlackSent])
            | PostFailed =>
                (Py.Ok tt, w',
                 [WarningHighErrorRate stats; Post (ErrorRateAlert stats); ErrorSlackFailed])
            | PostCrashed =>
                (Py.Raise Py.OtherError, w',
                 [WarningHighErrorRate stats; Post (ErrorRateAlert stats)])
            end
        | None => (Py.Ok tt, w', [WarningHighErrorRate stats])
        end
      else (Py.Ok tt, w', [])
    else (Py.Ok tt, mk (alert_manager w) (pool_tracker w) m (slack_notifier w), [])
  else (Py.Ok tt, w, []).
Proof.
  unfold track_error_rate, when.
  destruct (0 <? status_code); [|reflexivity].
  unfold bind at 1. unfold add_request.
  destruct (ErrorRateMonitor.add_request status_code (error_monitor w)) as [breach m].
  destruct breach; [|reflexivity].
  unfold bind at 1. unfold should_alert.
  cbn [alert_manager pool_tracker error_monitor slack_notifier].
  destruct (AlertManager.should_alert (now_error_rate e) "error_rate" (alert_manager w))
    as [fire a].
  destruct fire; [|reflexivity].
  destruct (slack_notifier w) as [n|]; [|reflexivity].
  destruct (post_error_rate e) eqn:Hp;
    cbv -[ErrorRateMonitor.get_current_stats]; rewrite ?Hp; reflexivity.
Qed.

Lemma track_pool_eq (e : env) (pool : string) (w : t) :
  track_pool e pool w =
  if Py.str_truthy pool then
    let '(previous_pool, p) := PoolTracker.update_pool (Some pool) (pool_tracker w) in
    let w1 := mk (alert_manager w) p (error_monitor w) (slack_notifier w) in
    match previous_pool with
    | Some previous =>
        if Py.str_truthy previous then
          let '(fire, a) :=
            AlertManager.should_alert (now_failover e) "failover" (alert_manager w) in
          let w2 := mk a p (error_monitor w) (slack_notifier w) in
          if fire then
            match slack_notifier w with
            | Some _ =>
                match post_failover e with
                | PostOk =>
                    (Py.Ok tt, w2,
                     [WarningFailover previous pool;
                      Post (FailoverAlert previous pool); InfoSlackSent])
                | PostFailed =>
                    (Py.Ok tt, w2,
                     [WarningFailover previous pool;
                      Post (FailoverAlert previous pool); ErrorSlackFailed])
                | PostCrashed =>
                    (Py.Raise Py.OtherError, w2,
                     [WarningFailover previous pool;
                      Post (FailoverAlert previous pool)])
                end
            | None => (Py.Ok tt, w2, [WarningFailover previous pool])
            end
          else (Py.Ok tt, w2, [])
        else (Py.Ok tt, w1, [])
    | None => (Py.Ok tt, w1, [])
    end
  else (Py.Ok tt, w, []).
Proof.
  unfold track_pool, when.
  destruct (Py.str_truthy pool); [|reflexivity].
  unfold bind at 1. unfold update_pool.
  destruct (PoolTracker.update_pool (Some pool) (pool_tracker w)) as [previous_pool p].
  destruct previous_pool as [previous|]; [|reflexivity].
  destruct (Py.str_truthy previous); [|reflexivity].
  unfold bind at 1. unfold should_alert.
  cbn [alert_manager pool_tracker error_monitor slack_notifier].
  destruct (AlertManager.should_alert (now_failover e) "failover" (alert_manager w))
    as [fire a].
  destruct fire; [|reflexivity].
  destruct (slack_notifier w) as [n|]; [|reflexivity].
  destruct (post_failover e) eqn:Hp; cbv; rewrite ?Hp; reflexivity.
Qed.

Lemma process_log_entry_eq (entry : gmap string Py.value) (e : env) (w : t) :
  process_log_entry entry e w =
  match Py.int (dict_get entry "status" (Py.PyInt 0)) with
  | Py.Raise x => (Py.Ok tt, w, [ErrorProcessing x])
  | Py.Ok status_code =>
      match Py.lower_method (dict_get entry "pool" (Py.PyStr "")) with
      | Py.Raise x => (Py.Ok tt, w, [ErrorProcessing x])
      | Py.Ok lowered =>
          match track_error_rate e status_code w with
          | (Py.Ok _, w1, out1) =>
              match track_pool e (Py.strip lowered) w1 with
              | (Py.Ok _, w2, out2) => (Py.Ok tt, w2, out1 ++ out2)
              | (Py.Raise x, w2, out2) =>
                  (Py.Ok tt, w2, (out1 ++ out2) ++ [ErrorProcessing x])
              end
          | (Py.Raise x, w1, out1) => (Py.Ok tt, w1, out1 ++ [ErrorProcessing x])
          end
      end
  end.
Proof.
  unfold process_log_entry, try_except, bind, of_result, is_Exception, ret, raise, emit.
  destruct (Py.int (dict_get entry "status" (Py.PyInt 0))) as [status_code|x];
    [|reflexivity].
  destruct (Py.lower_method (dict_get entry "pool" (Py.PyStr ""))) as [lowered|x];
    [|reflexivity].
  destruct (track_error_rate e status_code w) as [[[u|x] w1] out1]; [|reflexivity].
  destruct (track_pool e (Py.strip lowered) w1) as [[[u'|x] w2] out2].
  - destruct u'. reflexivity.
  - reflexivity.
Qed.


End WatcherEquations.

(** ** LogWatcher: invariants of the per-entry procedure *)

Section WatcherInvariants.
Import Eff LogWatcher.

(** No exception leaves [process_log_entry]. *)
Lemma process_log_entry_returns (entry : gmap string Py.value) (e : env) (w : t) :
  (process_log_entry entry e w).1.1 = Py.Ok tt.
Proof.
  rewrite process_log_entry_eq.
  destruct (Py.int _); [|reflexivity].
  destruct (Py.lower_method _); [|reflexivity].
  destruct (track_error_rate e a w) as [[[u|x] w1] out1]; [|reflexivity].
  destruct (track_pool e (Py.strip a0) w1) as [[[u'|x] w2] out2]; reflexivity.
Qed.

(** A property of the state kept by both branches, with a property of what
    they emit, is kept by [process_log_entry]. *)
Lemma process_log_entry_inv (P : t -> Prop) (Q : output -> Prop)
    (entry : gmap string Py.value) (e : env) (w : t) :
  (forall s w1, P w1 ->
     P (Runs.state_of (track_error_rate e s w1))
     /\ Forall Q (Runs.outputs_of (track_error_rate e s w1))) ->
  (forall p w1, P w1 ->
     P (Runs.state_of (track_pool e p w1))
     /\ Forall Q (Runs.outputs_of (track_pool e p w1))) ->
  (forall x, Q (ErrorProcessing x)) ->
  P w ->
  P (Runs.state_of (process_log_entry entry e w))
  /\ Forall Q (Runs.outputs_of (process_log_entry entry e w)).
Proof.
  intros HA HB HQ Hw. rewrite process_log_entry_eq.
  destruct (Py.int _) as [status_code|x];
    [|split; [exact Hw|repeat constructor; apply HQ]].
  destruct (Py.lower_method _) as [lowered|x];
    [|split; [exact Hw|repeat constructor; apply HQ]].
  specialize (HA status_code w Hw).
  destruct (track_error_rate e status_code w) as [[r1 w1] out1].
  unfold Runs.state_of, Runs.outputs_of in HA. simpl in HA. destruct HA as [Hw1 Hout1].
  destruct r1 as [u|x].
  - specialize (HB (Py.strip lowered) w1 Hw1).
    destruct (track_pool e (Py.strip lowered) w1) as [[r2 w2] out2].
    unfold Runs.state_of, Runs.outputs_of in HB. simpl in HB. destruct HB as [Hw2 Hout2].
    destruct r2 as [u'|x]; unfold Runs.state_of, Runs.outputs_of; simpl.
    + split; [exact Hw2|]. apply Forall_app. split; assumption.
    + split; [exact Hw2|]. rewrite !Forall_app.
      repeat split; try assumption. repeat constructor. apply HQ.
  - unfold Runs.state_of, Runs.outputs_of; simpl.
    split; [exact Hw1|]. apply Forall_app. split; [assumption|].
    repeat constructor. apply HQ.
Qed.

(** The same along the loop over the entries, for environments satisfying
    a condition [E]. *)
Lemma process_entries_inv (P : t -> Prop) (Q : output -> Prop) (E : env -> Prop) :
  (forall entry e w, E e -> P w ->
     P (Runs.state_of (process_log_entry entry e w))
     /\ Forall Q (Runs.outputs_of (process_log_entry entry e w))) ->
  forall (entries : list (gmap string Py.value * env)) (w : t),
    Forall (fun x => E x.2) entries ->
    P w ->
    P (process_entries entries w).1 /\ Forall Q (process_entries entries w).2.
Proof.
  intros Hstep entries. induction entries as [|[entry e] rest IH]; intros w HE Hw.
  - split; [exact Hw|constructor].
  - apply Forall_cons in HE. destruct HE as [He Hrest].
    cbn [process_entries]. case_bool_decide.
    + apply IH; assumption.
    + specialize (Hstep entry e w He Hw).
      destruct (process_log_entry entry e w) as [[r w'] out].
      unfold Runs.state_of, Runs.outputs_of in Hstep. simpl in Hstep.
      destruct Hstep as [Hw' Hout].
      specialize (IH w' Hrest Hw').
      destruct (process_entries rest w') as [w'' out']. simpl in *.
      destruct IH as [Hw'' Hout'].
      split; [exact Hw''|]. apply Forall_app. split; assumption.
Qed.

Lemma should_alert_cooling (kind : string) (now c t0 : Z) (a : AlertManager.t) :
  AlertManager.cooldown_seconds a = c ->
  AlertManager.last_alerts a !! kind = Some t0 ->
  now - t0 <= c * 1000000 ->
  AlertManager.should_alert now kind a = (false, a).
Proof.
  intros Hc Hl Hnow. rewrite (should_alert_later kind now t0 a Hl), Hc.
  destruct (Z.ltb_spec (c * 1000000) (now - t0)); [lia|reflexivity].
Qed.

(** [should_alert] on one kind leaves the other kinds and the configured
    cooldown as they are. *)
Lemma should_alert_other (kind kind' : string) (now : Z) (a : AlertManager.t) :
  kind <> kind' ->
  AlertManager.last_alerts (AlertManager.should_alert now kind a).2 !! kind'
  = AlertManager.last_alerts a !! kind'.
Proof.
  intros Hne. unfold AlertManager.should_alert.
  destruct (AlertManager.last_alerts a !! kind) as [last|].
  - destruct (_ <? _); simpl; [apply lookup_insert_ne; exact Hne|reflexivity].
  - simpl. apply lookup_insert_ne. exact Hne.
Qed.

Lemma should_alert_cooldown_seconds (kind : string) (now : Z) (a : AlertManager.t) :
  AlertManager.cooldown_seconds (AlertManager.should_alert now kind a).2
  = AlertManager.cooldown_seconds a.
Proof.
  unfold AlertManager.should_alert.
  destruct (AlertManager.last_alerts a !! kind) as [last|]; [|reflexivity].
  destruct (_ <? _); reflexivity.
Qed.

(** When [should_alert] answers [True], the time of the call is recorded. *)
Lemma should_alert_records (kind : string) (now : Z) (a : AlertManager.t) :
  (AlertManager.should_alert now kind a).1 = true ->
  AlertManager.last_alerts (AlertManager.should_alert now kind a).2 !! kind = Some now.
Proof.
  unfold AlertManager.should_alert.
  destruct (AlertManager.last_alerts a !! kind) as [last|].
  - destruct (_ <? _); simpl; [intros _; apply lookup_insert_eq|discriminate].
  - simpl. intros _. apply lookup_insert_eq.
Qed.

End WatcherInvariants.

Abbreviation no_error_rate_alert :=
  (fun o : Eff.output => Runs.is_error_rate_alert o = false).
Abbreviation no_failover_alert :=
  (fun o : Eff.output => Runs.is_failover_alert o = false).

Ltac emitted := repeat constructor.

Section WatcherBranches.
Import Eff LogWatcher.

(** The error-rate branch while the error-rate cooldown runs. *)
Lemma track_error_rate_cooling (c t0 : Z) (e : env) (s : Z) (w : t) :
  now_error_rate e - t0 <= c * 1000000 ->
  Runs.cooling "error_rate" c t0 w ->
  Runs.cooling "error_rate" c t0 (Runs.state_of (track_error_rate e s w))
  /\ Forall no_error_rate_alert (Runs.outputs_of (track_error_rate e s w)).
Proof.
  intros Hnow [Hc Hl]. rewrite track_error_rate_eq.
  destruct (0 <? s); [|split; [split; assumption|constructor]].
  destruct (ErrorRateMonitor.add_request s (error_monitor w)) as [breach m].
  destruct breach; [|split; [split; assumption|constructor]].
  rewrite (should_alert_cooling "error_rate" _ c t0 _ Hc Hl Hnow).
  split; [split; assumption|constructor].
Qed.

(** What the error-rate branch leaves alone. *)
Lemma track_error_rate_frame (e : env) (s : Z) (w : t) :
  let w' := Runs.state_of (track_error_rate e s w) in
  AlertManager.cooldown_seconds (alert_manager w')
  = AlertManager.cooldown_seconds (alert_manager w)
  /\ AlertManager.last_alerts (alert_manager w') !! "failover"
     = AlertManager.last_alerts (alert_manager w) !! "failover"
  /\ pool_tracker w' = pool_tracker w
  /\ slack_notifier w' = slack_notifier w
  /\ Forall no_failover_alert (Runs.outputs_of (track_error_rate e s w)).
Proof.
  rewrite track_error_rate_eq.
  destruct (0 <? s); [|repeat split; constructor].
  destruct (ErrorRateMonitor.add_request s (error_monitor w)) as [breach m].
  destruct breach; [|repeat split; constructor].
  pose proof (should_alert_other "error_rate" "failover" (now_error_rate e)
                (alert_manager w) ltac:(discriminate)) as Ho.
  pose proof (should_alert_cooldown_seconds "error_rate" (now_error_rate e)
                (alert_manager w)) as Hcs.
  destruct (AlertManager.should_alert (now_error_rate e) "error_rate" (alert_manager w))
    as [fire a].
  simpl in Ho, Hcs.
  destruct fire; [|repeat split; try assumption; constructor].
  destruct (slack_notifier w); [destruct (post_error_rate e)|];
    (repeat split; try assumption; emitted).
Qed.

Lemma track_error_rate_failover (c t0 : Z) (e : env) (s : Z) (w : t) :
  Runs.cooling "failover" c t0 w ->
  Runs.cooling "failover" c t0 (Runs.state_of (track_error_rate e s w))
  /\ Forall no_failover_alert (Runs.outputs_of (track_error_rate e s w)).
Proof.
  intros [Hc Hl].
  destruct (track_error_rate_frame e s w) as (Hc' & Hl' & _ & _ & Hout).
  split; [split; congruence|exact Hout].
Qed.

(** The pool branch while the failover cooldown runs. *)
Lemma track_pool_cooling (c t0 : Z) (e : env) (p : string) (w : t) :
  now_failover e - t0 <= c * 1000000 ->
  Runs.cooling "failover" c t0 w ->
  Runs.cooling "failover" c t0 (Runs.state_of (track_pool e p w))
  /\ Forall no_failover_alert (Runs.outputs_of (track_pool e p w)).
Proof.
  intros Hnow [Hc Hl]. rewrite track_pool_eq.
  destruct (Py.str_truthy p); [|split; [split; assumption|constructor]].
  destruct (PoolTracker.update_pool (Some p) (pool_tracker w)) as [previous_pool q].
  destruct previous_pool as [previous|]; [|split; [split; assumption|constructor]].
  destruct (Py.str_truthy previous); [|split; [split; assumption|constructor]].
  rewrite (should_alert_cooling "failover" _ c t0 _ Hc Hl Hnow).
  split; [split; assumption|constructor].
Qed.

(** What the pool branch leaves alone. *)
Lemma track_pool_frame (e : env) (p : string) (w : t) :
  let w' := Runs.state_of (track_pool e p w) in
  AlertManager.cooldown_seconds (alert_manager w')
  = AlertManager.cooldown_seconds (alert_manager w)
  /\ AlertManager.last_alerts (alert_manager w') !! "error_rate"
     = AlertManager.last_alerts (alert_manager w) !! "error_rate"
  /\ error_monitor w' = error_monitor w
  /\ slack_notifier w' = slack_notifier w
  /\ Forall no_error_rate_alert (Runs.outputs_of (track_pool e p w)).
Proof.
  rewrite track_pool_eq.
  destruct (Py.str_truthy p); [|repeat split; constructor].
  destruct (PoolTracker.update_pool (Some p) (pool_tracker w)) as [previous_pool q].
  destruct previous_pool as [previous|]; [|repeat split; constructor].
  destruct (Py.str_truthy previous); [|repeat split; constructor].
  pose proof (should_alert_other "failover" "error_rate" (now_failover e)
                (alert_manager w) ltac:(discriminate)) as Ho.
  pose proof (should_alert_cooldown_seconds "failover" (now_failover e)
                (alert_manager w)) as Hcs.
  destruct (AlertManager.should_alert (now_failover e) "failover" (alert_manager w))
    as [fire a].
  simpl in Ho, Hcs.
  destruct fire; [|repeat split; try assumption; constructor].
  destruct (slack_notifier w); [destruct (post_failover e)|];
    (repeat split; try assumption; emitted).
Qed.

Lemma track_pool_error_rate (c t0 : Z) (e : env) (p : string) (w : t) :
  Runs.cooling "error_rate" c t0 w ->
  Runs.cooling "error_rate" c t0 (Runs.state_of (track_pool e p w))
  /\ Forall no_error_rate_alert (Runs.outputs_of (track_pool e p w)).
Proof.
  intros [Hc Hl].
  destruct (track_pool_frame e p w) as (Hc' & Hl' & _ & _ & Hout).
  split; [split; congruence|exact Hout].
Qed.

(** Entries processed while the cooldown of the error-rate kind runs decide
    no error-rate alert. *)
Lemma process_entries_error_rate_cooling (c t0 : Z)
    (entries : list (gmap string Py.value * env)) (w : t) :
  Forall (fun x => now_error_rate x.2 - t0 <= c * 1000000) entries ->
  Runs.cooling "error_rate" c t0 w ->
  Forall no_error_rate_alert (process_entries entries w).2.
Proof.
  intros HE Hw.
  apply (process_entries_inv (Runs.cooling "error_rate" c t0) no_error_rate_alert
           (fun e => now_error_rate e - t0 <= c * 1000000)); try assumption.
  intros entry e w' He Hw'.
  apply process_log_entry_inv; try assumption.
  - intros s w1. apply track_error_rate_cooling, He.
  - intros p w1. apply track_pool_error_rate.
  - reflexivity.
Qed.

(** Entries processed while the cooldown of the failover kind runs decide
    no failover alert. *)
Lemma process_entries_failover_cooling (c t0 : Z)
    (entries : list (gmap string Py.value * env)) (w : t) :
  Forall (fun x => now_failover x.2 - t0 <= c * 1000000) entries ->
  Runs.cooling "failover" c t0 w ->
  Forall no_failover_alert (process_entries entries w).2.
Proof.
  intros HE Hw.
  apply (process_entries_inv (Runs.cooling "failover" c t0) no_failover_alert
           (fun e => now_failover e - t0 <= c * 1000000)); try assumption.
  intros entry e w' He Hw'.
  apply process_log_entry_inv; try assumption.
  - intros s w1. apply track_error_rate_failover.
  - intros p w1. apply track_pool_cooling, He.
  - reflexivity.
Qed.

End WatcherBranches.

Section WatcherAlerts.
Import Eff LogWatcher.

Lemma track_error_rate_small_window (e : env) (s : Z) (w : t) :
  Runs.small_window w ->
  Runs.small_window (Runs.state_of (track_error_rate e s w))
  /\ Forall no_error_rate_alert (Runs.outputs_of (track_error_rate e s w)).
Proof.
  intros [Hb HW]. rewrite track_error_rate_eq.
  destruct (0 <? s); [|split; [split; assumption|constructor]].
  pose proof (add_request_bounded s (error_monitor w) Hb) as Hb'.
  pose proof (add_request_window_size s (error_monitor w)) as HW'.
  pose proof (add_request_result s (error_monitor w)) as Hr.
  destruct (ErrorRateMonitor.add_request s (error_monitor w)) as [breach m].
  simpl in Hb', HW', Hr.
  destruct (Nat.ltb_spec (length (ErrorRateMonitor.requests m)) 50); [|lia].
  subst breach. split; [|constructor].
  split; simpl; [exact Hb'|lia].
Qed.

Lemma track_pool_small_window (e : env) (p : string) (w : t) :
  Runs.small_window w ->
  Runs.small_window (Runs.state_of (track_pool e p w))
  /\ Forall no_error_rate_alert (Runs.outputs_of (track_pool e p w)).
Proof.
  intros Hw.
  destruct (track_pool_frame e p w) as (_ & _ & Hm & _ & Hout).
  split; [|exact Hout]. unfold Runs.small_window. simpl in Hm. rewrite Hm. exact Hw.
Qed.

Lemma process_entries_small_window
    (entries : list (gmap string Py.value * env)) (w : t) :
  Runs.small_window w ->
  Forall no_error_rate_alert (process_entries entries w).2.
Proof.
  intros Hw.
  apply (process_entries_inv Runs.small_window no_error_rate_alert (fun _ => True));
    try assumption.
  - intros entry e w' _ Hw'.
    apply process_log_entry_inv; try assumption.
    + intros s w1. apply track_error_rate_small_window.
    + intros p w1. apply track_pool_small_window.
    + reflexivity.
  - apply Forall_forall. intros; exact I.
Qed.

(** An alert decided by a branch leaves the time of the decision recorded
    for its kind. *)
Lemma track_error_rate_fired (e : env) (s : Z) (w : t) :
  Exists (fun o => Runs.is_error_rate_alert o = true)
         (Runs.outputs_of (track_error_rate e s w)) ->
  AlertManager.last_alerts (alert_manager (Runs.state_of (track_error_rate e s w)))
    !! "error_rate" = Some (now_error_rate e).
Proof.
  rewrite track_error_rate_eq.
  destruct (0 <? s); [|intros H; inversion H].
  destruct (ErrorRateMonitor.add_request s (error_monitor w)) as [breach m].
  destruct breach; [|intros H; inversion H].
  pose proof (should_alert_records "error_rate" (now_error_rate e) (alert_manager w))
    as Hrec.
  destruct (AlertManager.should_alert (now_error_rate e) "error_rate" (alert_manager w))
    as [fire a].
  simpl in Hrec.
  destruct fire; [|intros H; inversion H].
  intros _.
  destruct (slack_notifier w); [destruct (post_error_rate e)|];
    apply Hrec; reflexivity.
Qed.

Lemma track_pool_fired (e : env) (p : string) (w : t) :
  Exists (fun o => Runs.is_failover_alert o = true)
         (Runs.outputs_of (track_pool e p w)) ->
  AlertManager.last_alerts (alert_manager (Runs.state_of (track_pool e p w)))
    !! "failover" = Some (now_failover e).
Proof.
  rewrite track_pool_eq.
  destruct (Py.str_truthy p); [|intros H; inversion H].
  destruct (PoolTracker.update_pool (Some p) (pool_tracker w)) as [previous_pool q].
  destruct previous_pool as [previous|]; [|intros H; inversion H].
  destruct (Py.str_truthy previous); [|intros H; inversion H].
  pose proof (should_alert_records "failover" (now_failover e) (alert_manager w))
    as Hrec.
  destruct (AlertManager.should_alert (now_failover e) "failover" (alert_manager w))
    as [fire a].
  simpl in Hrec.
  destruct fire; [|intros H; inversion H].
  intros _.
  destruct (slack_notifier w); [destruct (post_failover e)|];
    apply Hrec; reflexivity.
Qed.

Lemma Exists_Forall_false {A : Type} (f : A -> bool) (l : list A) :
  Forall (fun x => f x = false) l -> Exists (fun x => f x = true) l -> False.
Proof.
  intros HF HE. induction HE as [x l Hx | x l HE IH].
  - apply Forall_cons in HF. destruct HF as [Hf _]. congruence.
  - apply Forall_cons in HF. destruct HF as [_ HF]. exact (IH HF).
Qed.

(** The same for a whole entry: the cooldown of the kind runs from the
    reading of the clock at which the alert was decided. *)
Lemma process_log_entry_error_rate_recorded
    (entry : gmap string Py.value) (e : env) (w : t) :
  Exists (fun o => Runs.is_error_rate_alert o = true)
         (Runs.outputs_of (process_log_entry entry e w)) ->
  Runs.cooling "error_rate" (AlertManager.cooldown_seconds (alert_manager w))
          (now_error_rate e) (Runs.state_of (process_log_entry entry e w)).
Proof.
  rewrite process_log_entry_eq.
  destruct (Py.int _) as [status_code|x];
    [|intros H; inversion H as [? ? H1 | ? ? H1]; [discriminate|inversion H1]].
  destruct (Py.lower_method _) as [lowered|x];
    [|intros H; inversion H as [? ? H1 | ? ? H1]; [discriminate|inversion H1]].
  pose proof (track_error_rate_fired e status_code w) as Hfired.
  destruct (track_error_rate_frame e status_code w) as (Hc1 & _).
  destruct (track_error_rate e status_code w) as [[r1 w1] out1].
  unfold Runs.state_of, Runs.outputs_of in *. simpl in Hfired, Hc1.
  assert (Hx : forall x, Exists (fun o => Runs.is_error_rate_alert o = true)
                                [ErrorProcessing x] -> False).
  { intros x H. inversion H as [? ? H1 | ? ? H1]; [discriminate|inversion H1]. }
  destruct r1 as [u|x].
  - destruct (track_pool_frame e (Py.strip lowered) w1) as (Hc2 & Hl2 & _ & _ & Hno).
    destruct (track_pool e (Py.strip lowered) w1) as [[r2 w2] out2].
    unfold Runs.state_of, Runs.outputs_of in *. simpl in Hc2, Hl2, Hno.
    assert (Hgoal : Exists (fun o => Runs.is_error_rate_alert o = true) out1 ->
                    Runs.cooling "error_rate"
                      (AlertManager.cooldown_seconds (alert_manager w))
                      (now_error_rate e) w2).
    { intros H1. split; [congruence|]. rewrite Hl2. apply Hfired, H1. }
    destruct r2 as [u'|x]; simpl; rewrite ?Exists_app; intros H.
    + destruct H as [H | H]; [exact (Hgoal H)|].
      destruct (Exists_Forall_false _ _ Hno H).
    + destruct H as [[H | H] | H]; [exact (Hgoal H)| |destruct (Hx _ H)].
      destruct (Exists_Forall_false _ _ Hno H).
  - simpl. rewrite Exists_app. intros [H | H]; [|destruct (Hx _ H)].
    split; [exact Hc1|apply Hfired, H].
Qed.

Lemma process_log_entry_failover_recorded
    (entry : gmap string Py.value) (e : env) (w : t) :
  Exists (fun o => Runs.is_failover_alert o = true)
         (Runs.outputs_of (process_log_entry entry e w)) ->
  Runs.cooling "failover" (AlertManager.cooldown_seconds (alert_manager w))
          (now_failover e) (Runs.state_of (process_log_entry entry e w)).
Proof.
  rewrite process_log_entry_eq.
  destruct (Py.int _) as [status_code|x];
    [|intros H; inversion H as [? ? H1 | ? ? H1]; [discriminate|inversion H1]].
  destruct (Py.lower_method _) as [lowered|x];
    [|intros H; inversion H as [? ? H1 | ? ? H1]; [discriminate|inversion H1]].
  destruct (track_error_rate_frame e status_code w) as (Hc1 & _ & _ & _ & Hno).
  destruct (track_error_rate e status_code w) as [[r1 w1] out1].
  unfold Runs.state_of, Runs.outputs_of in *. simpl in Hc1, Hno.
  assert (Hx : forall x, Exists (fun o => Runs.is_failover_alert o = true)
                                [ErrorProcessing x] -> False).
  { intros x H. inversion H as [? ? H1 | ? ? H1]; [discriminate|inversion H1]. }
  destruct r1 as [u|x].
  - pose proof (track_pool_fired e (Py.strip lowered) w1) as Hfired.
    destruct (track_pool_frame e (Py.strip lowered) w1) as (Hc2 & _).
    destruct (track_pool e (Py.strip lowered) w1) as [[r2 w2] out2].
    unfold Runs.state_of, Runs.outputs_of in *. simpl in Hc2, Hfired.
    assert (Hgoal : Exists (fun o => Runs.is_failover_alert o = true) out2 ->
                    Runs.cooling "failover"
                      (AlertManager.cooldown_seconds (alert_manager w))
                      (now_failover e) w2).
    { intros H2. split; [congruence|]. apply Hfired, H2. }
    destruct r2 as [u'|x]; simpl; rewrite ?Exists_app; intros H.
    + destruct H as [H | H]; [|exact (Hgoal H)].
      destruct (Exists_Forall_false _ _ Hno H).
    + destruct H as [[H | H] | H]; [|exact (Hgoal H)|destruct (Hx _ H)].
      destruct (Exists_Forall_false _ _ Hno H).
  - simpl. rewrite Exists_app. intros [H | H]; [|destruct (Hx _ H)].
    destruct (Exists_Forall_false _ _ Hno H).
Qed.

End WatcherAlerts.

(** ** LogWatcher: the outcome of the posts *)

Section WatcherPosts.
Import Eff LogWatcher.

(** Result and state of a branch do not depend on whether the post
    succeeds or fails with a [RequestException]. *)
Lemma track_error_rate_post (e e' : env) (s : Z) (w : t) :
  now_error_rate e = now_error_rate e' ->
  post_error_rate e <> PostCrashed ->
  post_error_rate e' <> PostCrashed ->
  (track_error_rate e s w).1 = (track_error_rate e' s w).1.
Proof.
  intros Hnow Hp Hp'. rewrite !track_error_rate_eq, Hnow.
  destruct (0 <? s); [|reflexivity].
  destruct (ErrorRateMonitor.add_request s (error_monitor w)) as [breach m].
  destruct breach; [|reflexivity].
  destruct (AlertManager.should_alert (now_error_rate e') "error_rate" (alert_manager w))
    as [fire a].
  destruct fire; [|reflexivity].
  destruct (slack_notifier w); [|reflexivity].
  destruct (post_error_rate e), (post_error_rate e'); (reflexivity || congruence).
Qed.

Lemma track_pool_post (e e' : env) (p : string) (w : t) :
  now_failover e = now_failover e' ->
  post_failover e <> PostCrashed ->
  post_failover e' <> PostCrashed ->
  (track_pool e p w).1 = (track_pool e' p w).1.
Proof.
  intros Hnow Hp Hp'. rewrite !track_pool_eq, Hnow.
  destruct (Py.str_truthy p); [|reflexivity].
  destruct (PoolTracker.update_pool (Some p) (pool_tracker w)) as [previous_pool q].
  destruct previous_pool as [previous|]; [|reflexivity].
  destruct (Py.str_truthy previous); [|reflexivity].
  destruct (AlertManager.should_alert (now_failover e') "failover" (alert_manager w))
    as [fire a].
  destruct fire; [|reflexivity].
  destruct (slack_notifier w); [|reflexivity].
  destruct (post_failover e), (post_failover e'); (reflexivity || congruence).
Qed.

Lemma process_log_entry_post (entry : gmap string Py.value) (e e' : env) (w : t) :
  now_error_rate e = now_error_rate e' ->
  now_failover e = now_failover e' ->
  post_error_rate e <> PostCrashed -> post_error_rate e' <> PostCrashed ->
  post_failover e <> PostCrashed -> post_failover e' <> PostCrashed ->
  (process_log_entry entry e w).1 = (process_log_entry entry e' w).1.
Proof.
  intros Hn1 Hn2 Hp1 Hp1' Hp2 Hp2'. rewrite !process_log_entry_eq.
  destruct (Py.int _) as [status_code|x]; [|reflexivity].
  destruct (Py.lower_method _) as [lowered|x]; [|reflexivity].
  pose proof (track_error_rate_post e e' status_code w Hn1 Hp1 Hp1') as H1.
  destruct (track_error_rate e status_code w) as [[r1 w1] out1].
  destruct (track_error_rate e' status_code w) as [[r1' w1'] out1'].
  simpl in H1. inversion H1; subst r1' w1'.
  destruct r1 as [u|x]; [|reflexivity].
  pose proof (track_pool_post e e' (Py.strip lowered) w1 Hn2 Hp2 Hp2') as H2.
  destruct (track_pool e (Py.strip lowered) w1) as [[r2 w2] out2].
  destruct (track_pool e' (Py.strip lowered) w1) as [[r2' w2'] out2'].
  simpl in H2. inversion H2; subst r2' w2'.
  destruct r2; reflexivity.
Qed.

(** A post that fails is followed by the error record of [_send_message]. *)
Lemma track_error_rate_logged (e : env) (s : Z) (w : t) (m : message) :
  post_error_rate e = PostFailed ->
  In (Post m) (Runs.outputs_of (track_error_rate e s w)) ->
  In ErrorSlackFailed (Runs.outputs_of (track_error_rate e s w)).
Proof.
  intros Hp. rewrite track_error_rate_eq, Hp.
  destruct (0 <? s); [|intros []].
  destruct (ErrorRateMonitor.add_request s (error_monitor w)) as [breach em].
  destruct breach; [|intros []].
  destruct (AlertManager.should_alert _ _ _) as [fire a].
  destruct fire; [|intros []].
  destruct (slack_notifier w); simpl; intros H; [tauto|].
  destruct H as [H | []]. discriminate.
Qed.

Lemma track_pool_logged (e : env) (p : string) (w : t) (m : message) :
  post_failover e = PostFailed ->
  In (Post m) (Runs.outputs_of (track_pool e p w)) ->
  In ErrorSlackFailed (Runs.outputs_of (track_pool e p w)).
Proof.
  intros Hp. rewrite track_pool_eq, Hp.
  destruct (Py.str_truthy p); [|intros []].
  destruct (PoolTracker.update_pool (Some p) (pool_tracker w)) as [previous_pool q].
  destruct previous_pool as [previous|]; [|intros []].
  destruct (Py.str_truthy previous); [|intros []].
  destruct (AlertManager.should_alert _ _ _) as [fire a].
  destruct fire; [|intros []].
  destruct (slack_notifier w); simpl; intros H; [tauto|].
  destruct H as [H | []]. discriminate.
Qed.

Lemma process_log_entry_logged (entry : gmap string Py.value) (e : env) (w : t)
    (m : message) :
  post_error_rate e = PostFailed ->
  post_failover e = PostFailed ->
  In (Post m) (Runs.outputs_of (process_log_entry entry e w)) ->
  In ErrorSlackFailed (Runs.outputs_of (process_log_entry entry e w)).
Proof.
  intros Hp1 Hp2. rewrite process_log_entry_eq.
  destruct (Py.int _) as [status_code|x];
    [|simpl; intros [H | []]; discriminate].
  destruct (Py.lower_method _) as [lowered|x];
    [|simpl; intros [H | []]; discriminate].
  pose proof (track_error_rate_logged e status_code w m Hp1) as H1.
  destruct (track_error_rate e status_code w) as [[r1 w1] out1].
  unfold Runs.outputs_of in *. simpl in H1.
  destruct r1 as [u|x].
  - pose proof (track_pool_logged e (Py.strip lowered) w1 m Hp2) as H2.
    destruct (track_pool e (Py.strip lowered) w1) as [[r2 w2] out2].
    unfold Runs.outputs_of in *. simpl in H2.
    destruct r2 as [u'|x]; simpl; rewrite !in_app_iff; simpl; intros H.
    + destruct H as [H | H]; [left; exact (H1 H)|right; exact (H2 H)].
    + destruct H as [[H | H] | [H | []]];
        [left; left; exact (H1 H)|left; right; exact (H2 H)|discriminate].
  - simpl. rewrite !in_app_iff. simpl.
    intros [H | [H | []]]; [left; exact (H1 H)|discriminate].
Qed.

End WatcherPosts.

(** ** LogWatcher: the claims *)

Section WatcherClaims.
Import Eff LogWatcher.

(** C10. With a window capacity below 50 the window never holds 50 entries,
    [add_request] returns [False] on every call of every sequence of calls,
    and the watcher never decides an error-rate alert, whatever the entries,
    the threshold and the rest of the configuration. *)
Theorem small_window_never_alerts (W : nat) :
  (W < 50)%nat ->
  (forall (th : Py.float) (codes : list Z),
      (length (ErrorRateMonitor.requests
                 (Runs.add_requests codes (ErrorRateMonitor.init W th)).2) < 50)%nat
      /\ Forall (fun r => r = false)
                (Runs.add_requests codes (ErrorRateMonitor.init W th)).1)
  /\ (forall (webhook : option string) (th : Py.float) (cd : Z)
             (entries : list (gmap string Py.value * env)),
        Forall (fun o => Runs.is_error_rate_alert o = false)
               (process_entries entries (init webhook th W cd)).2).
Proof.
  intros HW. split.
  - intros th codes. split.
    + pose proof (add_requests_bounded codes (ErrorRateMonitor.init W th)) as Hb.
      simpl in Hb. specialize (Hb ltac:(lia)). lia.
    + apply add_requests_results_false; simpl; lia.
  - intros webhook th cd entries. apply process_entries_small_window.
    split; simpl; lia.
Qed.

Lemma small_window_never_alerts_witness :
  Forall (fun r => r = false)
         (Runs.add_requests (repeat 503 60) (ErrorRateMonitor.init 49 Samples.two_percent)).1.
Proof.
  apply (small_window_never_alerts 49). lia.
Defined.

(** C9. An entry without a status whose pool is ["yellow"] is processed
    without error: the watcher is left exactly as it was and nothing is
    emitted. *)
Theorem process_log_entry_yellow (entry : gmap string Py.value) (e : env) (w : t) :
  entry !! "status" = None ->
  entry !! "pool" = Some (Py.PyStr "yellow") ->
  process_log_entry entry e w = (Py.Ok tt, w, []).
Proof.
  intros Hs Hp. rewrite process_log_entry_eq. unfold dict_get. rewrite Hs, Hp.
  cbn [Py.int Py.lower_method].
  rewrite track_error_rate_eq. change (0 <? 0) with false. cbv iota.
  rewrite track_pool_eq.
  change (Py.strip (Py.lower "yellow")) with "yellow".
  change (Py.str_truthy "yellow") with true. cbv iota.
  rewrite update_pool_invalid by discriminate.
  destruct w; reflexivity.
Qed.

Lemma process_log_entry_yellow_witness :
  process_log_entry Samples.entry_yellow Samples.quiet Samples.watcher_49
  = (Py.Ok tt, Samples.watcher_49, []).
Proof.
  apply process_log_entry_yellow; reflexivity.
Defined.




(** C7. When a post fails with a [RequestException] the failure is caught
    and logged: [process_log_entry] returns normally and leaves the watcher
    in the state a successful post would leave, window, pool tracker and
    cooldown times included. The time recorded by [should_alert] for the
    alert stays, so entries processed while the cooldown runs decide no
    further alert of that kind. *)
Theorem notifier_failure_absorbed (entry : gmap string Py.value) (e : env) (w : t)
    (rest : list (gmap string Py.value * env)) :
  post_error_rate e <> PostCrashed ->
  post_failover e <> PostCrashed ->
  let e_ok := mk_env (now_error_rate e) PostOk (now_failover e) PostOk in
  let w' := Runs.state_of (process_log_entry entry e w) in
  let out := Runs.outputs_of (process_log_entry entry e w) in
  let c := AlertManager.cooldown_seconds (alert_manager w) in
  (process_log_entry entry e w).1
  = (Py.Ok tt, Runs.state_of (process_log_entry entry e_ok w))
  /\ (post_error_rate e = PostFailed -> post_failover e = PostFailed ->
      forall m : message, In (Post m) out -> In ErrorSlackFailed out)
  /\ (Exists (fun o => Runs.is_error_rate_alert o = true) out ->
      AlertManager.last_alerts (alert_manager w') !! "error_rate"
      = Some (now_error_rate e)
      /\ (Forall (fun x => now_error_rate x.2 - now_error_rate e <= c * 1000000) rest ->
          Forall (fun o => Runs.is_error_rate_alert o = false)
                 (process_entries rest w').2))
  /\ (Exists (fun o => Runs.is_failover_alert o = true) out ->
      AlertManager.last_alerts (alert_manager w') !! "failover"
      = Some (now_failover e)
      /\ (Forall (fun x => now_failover x.2 - now_failover e <= c * 1000000) rest ->
          Forall (fun o => Runs.is_failover_alert o = false)
                 (process_entries rest w').2)).
Proof.
  intros Hp1 Hp2 e_ok w' out c.
  split; [|split; [|split]].
  - pose proof (process_log_entry_post entry e e_ok w) as Hpost.
    pose proof (process_log_entry_returns entry e_ok w) as Hret.
    rewrite Hpost; try reflexivity; try assumption; try discriminate.
    destruct (process_log_entry entry e_ok w) as [[r w1] out1].
    simpl in Hret. subst r. reflexivity.
  - intros Hf1 Hf2 m. apply process_log_entry_logged; assumption.
  - intros Hfired.
    destruct (process_log_entry_error_rate_recorded entry e w Hfired) as [Hc Hl].
    split; [exact Hl|].
    intros Hrest.
    apply (process_entries_error_rate_cooling c (now_error_rate e)); [exact Hrest|].
    split; assumption.
  - intros Hfired.
    destruct (process_log_entry_failover_recorded entry e w Hfired) as [Hc Hl].
    split; [exact Hl|].
    intros Hrest.
    apply (process_entries_failover_cooling c (now_failover e)); [exact Hrest|].
    split; assumption.
Qed.

Lemma notifier_failure_absorbed_witness :
  (process_log_entry Samples.entry_503 (Samples.failing 0) Samples.watcher_49).1
  = (Py.Ok tt,
     Runs.state_of
       (process_log_entry Samples.entry_503
          (mk_env (now_error_rate (Samples.failing 0)) PostOk
                  (now_failover (Samples.failing 0)) PostOk)
          Samples.watcher_49)).
Proof.
  assert (H1 : post_error_rate (Samples.failing 0) <> PostCrashed) by discriminate.
  assert (H2 : post_failover (Samples.failing 0) <> PostCrashed) by discriminate.
  exact (proj1 (notifier_failure_absorbed Samples.entry_503 (Samples.failing 0)
                  Samples.watcher_49 [] H1 H2)).
Defined.

End WatcherClaims.

(** ** The end-to-end scenarios of the specification *)

Section Scenarios.
Import Eff LogWatcher.

(** Blue, then green, then green again: one failover alert, from blue to
    green. *)
Example failover_scenario :
  (process_entries
     [(Samples.entry_blue, Samples.quiet); (Samples.entry_green, Samples.quiet);
      (Samples.entry_green, Samples.quiet)]
     Samples.watcher).2
  = [WarningFailover "blue" "green"; Post (FailoverAlert "blue" "green");
     InfoSlackSent].
Proof. vm_compute. reflexivity. Qed.

(** Sixty requests answered 200, then three answered 503 while every post
    fails: the second 503 brings the rate to 2 in 62 and the alert is
    decided once; the third, inside the cooldown, decides nothing. *)
Example error_rate_scenario :
  (process_entries
     (repeat (Samples.entry_200, Samples.quiet) 60
      ++ [(Samples.entry_503, Samples.failing 1000000);
          (Samples.entry_503, Samples.failing 2000000);
          (Samples.entry_503, Samples.failing 3000000)])
     Samples.watcher).2
  = let stats := ErrorRateMonitor.mk_stats 62 2 (Py.round2 (Runs.rate_of 2 62)) in
    [WarningHighErrorRate stats; Post (ErrorRateAlert stats); ErrorSlackFailed].
Proof. vm_compute. reflexivity. Qed.

(** A status that [int] refuses drops the entry with its pool. *)
Example malformed_status_scenario :
  process_log_entry
    (<["status" := Py.PyStr "abc"]> (<["pool" := Py.PyStr "green"]> ∅))
    Samples.quiet Samples.watcher
  = (Py.Ok tt, Samples.watcher, [ErrorProcessing Py.ValueError]).
Proof. vm_compute. reflexivity. Qed.

End Scenarios.

(** * Further properties of the code *)

(** ** AlertManager over sequences of calls *)

Section CooldownRuns.
Import AlertManager.

Lemma should_alert_refused (kind : string) (now : Z) (a : t) :
  (should_alert now kind a).1 = false -> (should_alert now kind a).2 = a.
Proof.
  unfold should_alert. destruct (last_alerts a !! kind) as [last|]; [|discriminate].
  destruct (_ <? _); [discriminate|reflexivity].
Qed.

Lemma should_alert_granted (kind : string) (now : Z) (a : t) :
  (should_alert now kind a).1 = true ->
  match last_alerts a !! kind with
  | Some last => cooldown_seconds a * 1000000 < now - last
  | None => True
  end.
Proof.
  unfold should_alert, cooldown. destruct (last_alerts a !! kind) as [last|]; [|trivial].
  destruct (Z.ltb_spec (cooldown_seconds a * 1000000) (now - last)); [trivial|discriminate].
Qed.

(** The answer depends on the manager only through the cooldown and the
    time recorded for the kind asked. *)
Lemma should_alert_answer_local (kind : string) (now : Z) (a a' : t) :
  cooldown_seconds a = cooldown_seconds a' ->
  last_alerts a !! kind = last_alerts a' !! kind ->
  (should_alert now kind a).1 = (should_alert now kind a').1.
Proof.
  intros Hc Hl. unfold should_alert, cooldown. rewrite <- Hl, <- Hc.
  destruct (last_alerts a !! kind) as [last|]; [|reflexivity].
  destruct (_ <? _); reflexivity.
Qed.

(** X1. The alert kinds are independent: a call of [should_alert] for one
    kind changes neither the time recorded for any other kind nor the
    configured cooldown, and its answer depends on the manager only through
    the cooldown and the time recorded for that kind. *)
Theorem should_alert_kinds_independent (kind : string) (now : Z) (a a' : t) :
  (forall other : string,
      other <> kind ->
      last_alerts (should_alert now kind a).2 !! other = last_alerts a !! other)
  /\ cooldown_seconds (should_alert now kind a).2 = cooldown_seconds a
  /\ (cooldown_seconds a = cooldown_seconds a' ->
      last_alerts a !! kind = last_alerts a' !! kind ->
      (should_alert now kind a).1 = (should_alert now kind a').1).
Proof.
  split; [|split].
  - intros other Hne. apply should_alert_other. congruence.
  - apply should_alert_cooldown_seconds.
  - apply should_alert_answer_local.
Qed.

Lemma should_alert_kinds_independent_witness :
  (should_alert 5 "failover" (should_alert 0 "error_rate" (init 300)).2).1
  = (should_alert 5 "failover" (init 300)).1.
Proof.
  apply (should_alert_kinds_independent "failover" 5
           (should_alert 0 "error_rate" (init 300)).2 (init 300));
    reflexivity.
Defined.

Lemma spaced_cons (c t : Z) (times : list Z) :
  match times with t' :: _ => c < t' - t | [] => True end ->
  Traces.spaced c times -> Traces.spaced c (t :: times).
Proof. intros H1 H2. split; assumption. Qed.

(** X2. Rate limit. Along any sequence of calls of [should_alert], from any
    state, the calls answered [True] for one kind are spaced by more than
    the cooldown, starting from the time recorded for that kind before the
    sequence; and the time recorded in the end is the last of them. *)
Theorem should_alerts_spaced (kind : string) (calls : list (Z * string)) (a : t) :
  Traces.spaced (cooldown_seconds a * 1000000) (Traces.granted_times kind calls a)
  /\ last_alerts (Traces.should_alerts calls a).2 !! kind
     = last (Traces.granted_times kind calls a)
  /\ cooldown_seconds (Traces.should_alerts calls a).2 = cooldown_seconds a.
Proof.
  revert a. induction calls as [|[now k] calls IH]; intros a.
  - unfold Traces.granted_times. simpl.
    destruct (last_alerts a !! kind) as [t0|]; simpl; repeat split; trivial.
  - unfold Traces.granted_times. cbn [Traces.should_alerts Traces.fired].
    pose proof (should_alert_other k kind now a) as Hother.
    pose proof (should_alert_cooldown_seconds k now a) as Hcs.
    pose proof (should_alert_refused k now a) as Href.
    pose proof (should_alert_granted k now a) as Hgr.
    pose proof (should_alert_records k now a) as Hrec.
    destruct (should_alert now k a) as [r a1]. simpl in Hother, Hcs, Href, Hgr, Hrec.
    specialize (IH a1). unfold Traces.granted_times in IH. rewrite Hcs in IH.
    destruct (Traces.should_alerts calls a1) as [rs a2]. cbn [fst snd] in *.
    destruct (decide (k = kind)) as [-> | Hne].
    + rewrite bool_decide_eq_true_2 by reflexivity. cbn [andb].
      destruct r.
      * rewrite (Hrec eq_refl) in IH. specialize (Hgr eq_refl).
        destruct IH as (Hsp & Hlast & Hc).
        destruct (last_alerts a !! kind) as [t0|].
        -- split; [|split; [|exact Hc]].
           ++ apply spaced_cons; [exact Hgr|exact Hsp].
           ++ rewrite Hlast. reflexivity.
        -- split; [exact Hsp|split; [exact Hlast|exact Hc]].
      * rewrite (Href eq_refl) in IH. exact IH.
    + rewrite bool_decide_eq_false_2 by exact Hne. cbn [andb].
      rewrite (Hother Hne) in IH. exact IH.
Qed.

End CooldownRuns.

(** ** PoolTracker on arbitrary arguments *)

Section PoolRuns.
Import PoolTracker.

Lemma update_pool_calls_snoc (inputs : list (option string)) (x : option string)
    (t : PoolTracker.t) :
  Traces.update_pool_calls (inputs ++ [x]) t =
  ((Traces.update_pool_calls inputs t).1
     ++ [(update_pool x (Traces.update_pool_calls inputs t).2).1],
   (update_pool x (Traces.update_pool_calls inputs t).2).2).
Proof.
  revert t. induction inputs as [|y inputs IH]; intros t;
    cbn [Traces.update_pool_calls app fst snd].
  - destruct (update_pool x t); reflexivity.
  - destruct (update_pool y t) as [r t']. rewrite IH.
    destruct (Traces.update_pool_calls inputs t') as [rs t'']. cbn [fst snd].
    destruct (update_pool x t''); reflexivity.
Qed.

(** An argument is either refused, and nothing happens, or it is one of the
    two names. *)
Lemma update_pool_cases (x : option string) (t : PoolTracker.t) :
  (Traces.accepted [x] = [] /\ update_pool x t = (None, t))
  \/ (exists p, x = Some p /\ Runs.valid_identity p /\ Traces.accepted [x] = [p]).
Proof.
  destruct x as [s|].
  - destruct (valid_pool s) eqn:Hv.
    + right. exists s. split; [reflexivity|]. split; [apply valid_pool_spec, Hv|].
      unfold Traces.accepted. simpl. rewrite Hv. reflexivity.
    + left. split; [unfold Traces.accepted; simpl; rewrite Hv; reflexivity|].
      apply update_pool_invalid; intros Heq; inversion Heq; subst s; discriminate.
  - left. split; reflexivity.
Qed.

Lemma last_deque_append (l : list string) (p : string) :
  last (Py.deque_append 10 l p) = Some p.
Proof.
  unfold Py.deque_append.
  destruct (10 <? length (l ++ [p]))%nat eqn:E; [|apply last_snoc].
  destruct l as [|x l]; [discriminate|]. simpl. apply last_snoc.
Qed.

Lemma Forall_deque_append (P : string -> Prop) (n : nat) (l : list string) (p : string) :
  Forall P l -> P p -> Forall P (Py.deque_append n l p).
Proof.
  intros Hl Hp. unfold Py.deque_append.
  assert (H : Forall P (l ++ [p])) by (apply Forall_app; split; [exact Hl|repeat constructor; exact Hp]).
  destruct (_ <? _)%nat; [|exact H].
  rewrite tail_drop. apply Forall_drop, H.
Qed.

Lemma update_pool_inv (x : option string) (t : PoolTracker.t) :
  Traces.pool_inv t -> Traces.pool_inv (update_pool x t).2.
Proof.
  intros (Hcur & Hlen & Hall).
  destruct (update_pool_cases x t) as [[_ Hno] | (p & -> & Hp & _)].
  - rewrite Hno. repeat split; assumption.
  - rewrite (update_pool_valid p t Hp). cbn [snd]. repeat split; cbn [current_pool last_seen_pools].
    + symmetry. apply last_deque_append.
    + apply deque_append_length, Hlen.
    + apply Forall_deque_append; assumption.
Qed.

(** X3. Whatever [update_pool] is called with, present or not, valid or
    not, the tracker keeps its shape: the history holds at most 10 names,
    all of them ["blue"] or ["green"], and [current_pool] is the newest name
    of the history (absent when the history is empty). This holds of every
    tracker reached from the constructor. *)
Theorem pool_tracker_invariant :
  (forall (x : option string) (t : PoolTracker.t),
      Traces.pool_inv t -> Traces.pool_inv (update_pool x t).2)
  /\ (forall inputs : list (option string),
        Traces.pool_inv (Traces.update_pool_calls inputs init).2).
Proof.
  split; [exact update_pool_inv|].
  intros inputs. induction inputs as [|x inputs IH] using rev_ind.
  - repeat split; simpl; [lia|constructor].
  - rewrite update_pool_calls_snoc. cbn [snd]. apply update_pool_inv, IH.
Qed.

Lemma pool_tracker_invariant_witness :
  Traces.pool_inv (update_pool (Some "green") init).2.
Proof.
  apply (proj1 pool_tracker_invariant). repeat split; simpl; [lia|constructor].
Defined.

Lemma accepted_snoc (inputs : list (option string)) (x : option string) :
  Traces.accepted (inputs ++ [x]) = Traces.accepted inputs ++ Traces.accepted [x].
Proof. unfold Traces.accepted. apply omap_app. Qed.

(** X4. After any sequence of calls from the constructor the tracker is
    determined by the accepted arguments alone: [current_pool] is the last
    accepted name and the history is the last 10 accepted names. Anything
    else passed in between leaves no trace. *)
Theorem update_pool_calls_state (inputs : list (option string)) :
  (Traces.update_pool_calls inputs init).2
  = mk (last (Traces.accepted inputs)) (Runs.lastn 10 (Traces.accepted inputs)).
Proof.
  induction inputs as [|x inputs IH] using rev_ind; [reflexivity|].
  rewrite update_pool_calls_snoc, accepted_snoc. cbn [snd]. rewrite IH.
  destruct (update_pool_cases x
              (mk (last (Traces.accepted inputs))
                  (Runs.lastn 10 (Traces.accepted inputs))))
    as [[Hacc Hno] | (p & -> & Hp & Hacc)].
  - rewrite Hno, Hacc, app_nil_r. reflexivity.
  - rewrite (update_pool_valid p _ Hp), Hacc. cbn [snd last_seen_pools].
    rewrite last_snoc, deque_append_lastn. reflexivity.
Qed.

(** The values returned along a sequence of calls, from a tracker whose
    current pool is absent or a valid name. *)
Lemma update_pool_calls_changes (inputs : list (option string)) (t : PoolTracker.t) :
  (current_pool t = None \/ exists q, current_pool t = Some q /\ Runs.valid_identity q) ->
  omap id (Traces.update_pool_calls inputs t).1
  = Traces.changes (current_pool t) (Traces.accepted inputs).
Proof.
  revert t. induction inputs as [|x inputs IH]; intros t Ht; [reflexivity|].
  cbn [Traces.update_pool_calls].
  change (x :: inputs) with ([x] ++ inputs).
  unfold Traces.accepted at 1. rewrite omap_app. fold (Traces.accepted [x]).
  fold (Traces.accepted inputs).
  destruct (update_pool_cases x t) as [[Hacc Hno] | (p & -> & Hp & Hacc)].
  - rewrite Hno, Hacc. specialize (IH t Ht).
    destruct (Traces.update_pool_calls inputs t) as [rs t']. exact IH.
  - rewrite (update_pool_valid p t Hp), Hacc.
    specialize (IH (mk (Some p) (Py.deque_append 10 (last_seen_pools t) p))
                   (or_intror (ex_intro _ p (conj eq_refl Hp)))).
    destruct (Traces.update_pool_calls inputs _) as [rs t']. cbn [fst snd] in *.
    cbn [app Traces.changes current_pool] in *.
    destruct Ht as [Hnone | (q & Hq & Hvq)].
    + rewrite Hnone. simpl. exact IH.
    + rewrite Hq. cbn [Py.opt_truthy]. rewrite (valid_identity_truthy q Hvq).
      cbn [andb].
      destruct (decide (q = p)) as [-> | Hne].
      * rewrite !bool_decide_eq_true_2 by reflexivity. simpl. exact IH.
      * rewrite (bool_decide_eq_false_2 (Some q = Some p)) by congruence.
        rewrite (bool_decide_eq_false_2 (q = p)) by exact Hne.
        simpl. f_equal. exact IH.
Qed.

(** X5. The pools that [update_pool] returns along any sequence of calls
    from the constructor are exactly the changes among the accepted names:
    one for each accepted name that differs from the accepted name before
    it, and that earlier name is what is returned. Refused arguments neither
    report a change nor hide one. *)
Theorem update_pool_calls_report_changes (inputs : list (option string)) :
  omap id (Traces.update_pool_calls inputs init).1
  = Traces.changes None (Traces.accepted inputs).
Proof. apply (update_pool_calls_changes inputs init). left. reflexivity. Qed.

End PoolRuns.

(** ** ErrorRateMonitor over sequences of calls *)

Section MonitorRuns.
Import ErrorRateMonitor.

Lemma get_current_stats_counts (m : t) :
  total (get_current_stats m) = length (requests m)
  /\ errors (get_current_stats m) = error_count (requests m).
Proof. unfold get_current_stats. destruct (requests m); split; reflexivity. Qed.

Lemma requests_after_run (W : nat) (th : Py.float) (codes : list Z) :
  requests (Runs.add_requests codes (init W th)).2 = Runs.lastn W codes.
Proof. rewrite add_requests_requests by (simpl; lia). reflexivity. Qed.

(** X6. The statistics after any sequence of requests on a fresh monitor:
    [total] is the number of requests, capped by the window size, [errors]
    counts the codes of at least 500 among the last [window_size] requests
    and never exceeds [total]; while nothing is in the window all three
    fields are zero. *)
Theorem stats_after_run (W : nat) (th : Py.float) (codes : list Z) :
  let st := get_current_stats (Runs.add_requests codes (init W th)).2 in
  total st = Nat.min W (length codes)
  /\ errors st = length (filter (fun c : Z => (500 <= c)%Z) (Runs.lastn W codes))
  /\ (errors st <= total st)%nat
  /\ (total st = 0%nat -> st = mk_stats 0 0 (S754_zero false)).
Proof.
  intros st. subst st.
  destruct (get_current_stats_counts (Runs.add_requests codes (init W th)).2)
    as [Ht He].
  rewrite requests_after_run in Ht, He.
  split; [rewrite Ht; apply lastn_length|].
  split; [rewrite He; reflexivity|].
  split; [rewrite Ht, He; apply error_count_le|].
  rewrite Ht. intros H0. unfold get_current_stats. rewrite requests_after_run.
  destruct (Runs.lastn W codes); [reflexivity|discriminate].
Qed.

Lemma stats_after_run_witness :
  get_current_stats (Runs.add_requests [503; 200] (init 0 (Py.float_of_int 2))).2
  = mk_stats 0 0 (S754_zero false).
Proof.
  apply (stats_after_run 0 (Py.float_of_int 2) [503; 200]).
  vm_compute. reflexivity.
Defined.

Lemma error_rate_no_errors (l : list Z) :
  error_count l = 0%nat -> error_rate l = S754_zero false.
Proof. intros H. unfold error_rate. rewrite H. reflexivity. Qed.

Lemma zero_not_above (th : Py.float) :
  Traces.not_negative th -> Py.float_gt (S754_zero false) th = false.
Proof. destruct th as [[]|[]| |[] m e]; simpl; intros H; try reflexivity; destruct H. Qed.

(** X7. [add_request] answers [True] only on a window of at least 50
    entries that holds at least one code of 500 or more, for every
    threshold that is not negative (zero, positive, infinite or NaN). *)
Theorem add_request_needs_errors (s : Z) (m : t) :
  Traces.not_negative (threshold_percent m) ->
  (add_request s m).1 = true ->
  (50 <= length (requests (add_request s m).2))%nat
  /\ (1 <= length (filter (fun c : Z => (500 <= c)%Z) (requests (add_request s m).2)))%nat.
Proof.
  intros Hth Htrue. rewrite add_request_result in Htrue.
  destruct (Nat.ltb_spec (length (requests (add_request s m).2)) 50) as [Hlt | Hge];
    [discriminate|].
  split; [exact Hge|].
  destruct (length (filter (fun c : Z => (500 <= c)%Z) (requests (add_request s m).2)))
    eqn:Hcount; [|lia].
  rewrite (error_rate_no_errors _ Hcount), (zero_not_above _ Hth) in Htrue.
  discriminate.
Qed.

Lemma add_request_needs_errors_witness :
  (50 <= length (requests (add_request 200 Samples.window_99).2))%nat
  /\ (1 <= length (filter (fun c : Z => (500 <= c)%Z)
                          (requests (add_request 200 Samples.window_99).2)))%nat.
Proof.
  apply (add_request_needs_errors 200 Samples.window_99).
  - exact I.
  - vm_compute. reflexivity.
Defined.

(** X8. With threshold 2.0 and a window size of at most 200, the answer of
    every call along a sequence of requests on a fresh monitor is decided by
    exact counting on the last [window_size] codes, the new one included:
    [True] exactly when they are at least 50 and [100 * errors > 2 * len].
    With the default window of 200, once it is full, that is at least 5
    errors among the last 200 requests. *)
Theorem add_request_default_threshold (W : nat) (codes : list Z) (s : Z) :
  (W <= 200)%nat ->
  let m := (Runs.add_requests codes (init W (Py.float_of_int 2))).2 in
  let window := Runs.lastn W (codes ++ [s]) in
  let errs := length (filter (fun c : Z => (500 <= c)%Z) window) in
  (add_request s m).1
  = ((50 <=? length window)%nat && (2 * Z.of_nat (length window) <? 100 * Z.of_nat errs))%bool
  /\ (W = 200%nat -> (199 <= length codes)%nat ->
      ((add_request s m).1 = true <-> (5 <= errs)%nat)).
Proof.
  intros HW m window errs.
  assert (Hwin : requests (add_request s m).2 = window).
  { subst m window. rewrite add_request_requests, add_requests_window_size.
    rewrite requests_after_run. apply deque_append_lastn. }
  assert (Hth : threshold_percent m = Py.float_of_int 2).
  { subst m. clear. induction codes as [|c codes IH] using rev_ind; [reflexivity|].
    rewrite add_requests_snoc. cbn [snd]. rewrite add_request_threshold. exact IH. }
  assert (Hlen : (length window <= W)%nat).
  { subst window. rewrite lastn_length. lia. }
  assert (Hres : (add_request s m).1
                 = ((50 <=? length window)%nat
                    && (2 * Z.of_nat (length window) <? 100 * Z.of_nat errs))%bool).
  { rewrite add_request_result, Hwin, Hth.
    destruct (Nat.ltb_spec (length window) 50) as [Hlt | Hge].
    - destruct (Nat.leb_spec 50 (length window)); [lia|reflexivity].
    - destruct (Nat.leb_spec 50 (length window)); [|lia]. cbn [andb].
      rewrite error_rate_rate_of. apply rate_exact_at_two_percent; [lia|].
      apply error_count_le. }
  split; [exact Hres|].
  intros -> Hfull. rewrite Hres.
  assert (Hl200 : length window = 200%nat).
  { subst window. rewrite lastn_length, length_app. cbn [length]. lia. }
  rewrite Hl200. change (50 <=? 200)%nat with true. cbn [andb].
  rewrite Z.ltb_lt. lia.
Qed.

Lemma add_request_default_threshold_witness :
  (add_request 503
     (Runs.add_requests (repeat 200 60 ++ [503])
        (init 200 (Py.float_of_int 2))).2).1
  = ((50 <=? length (Runs.lastn 200 ((repeat 200 60 ++ [503]) ++ [503])))%nat
     && (2 * Z.of_nat (length (Runs.lastn 200 ((repeat 200 60 ++ [503]) ++ [503])))
         <? 100 * Z.of_nat
                    (length (filter (fun c : Z => (500 <= c)%Z)
                               (Runs.lastn 200 ((repeat 200 60 ++ [503]) ++ [503]))))))%bool.
Proof.
  assert (H : (200 <= 200)%nat) by lia.
  exact (proj1 (add_request_default_threshold 200 (repeat 200 60 ++ [503]) 503 H)).
Defined.

End MonitorRuns.

(** ** LogWatcher: what each entry does to the trackers *)

Section WatcherTrackers.
Import Eff LogWatcher.

Lemma track_error_rate_window (e : env) (s : Z) (w : t) :
  error_monitor (Runs.state_of (track_error_rate e s w))
  = if 0 <? s then (ErrorRateMonitor.add_request s (error_monitor w)).2
    else error_monitor w.
Proof.
  rewrite track_error_rate_eq.
  destruct (0 <? s); [|reflexivity].
  destruct (ErrorRateMonitor.add_request s (error_monitor w)) as [breach m].
  destruct breach; [|reflexivity].
  destruct (AlertManager.should_alert _ _ _) as [fire a].
  destruct fire; [|reflexivity].
  destruct (slack_notifier w); [destruct (post_error_rate e)|]; reflexivity.
Qed.

Lemma track_pool_tracker (e : env) (p : string) (w : t) :
  pool_tracker (Runs.state_of (track_pool e p w))
  = if Py.str_truthy p then (PoolTracker.update_pool (Some p) (pool_tracker w)).2
    else pool_tracker w.
Proof.
  rewrite track_pool_eq.
  destruct (Py.str_truthy p); [|reflexivity].
  destruct (PoolTracker.update_pool (Some p) (pool_tracker w)) as [previous_pool q].
  destruct previous_pool as [previous|]; [|reflexivity].
  destruct (Py.str_truthy previous); [|reflexivity].
  destruct (AlertManager.should_alert _ _ _) as [fire a].
  destruct fire; [|reflexivity].
  destruct (slack_notifier w); [destruct (post_failover e)|]; reflexivity.
Qed.


Lemma process_log_entry_window (entry : gmap string Py.value) (e : env) (w : t) :
  error_monitor (Runs.state_of (process_log_entry entry e w))
  = match Traces.counted_status entry with
    | Some s => (ErrorRateMonitor.add_request s (error_monitor w)).2
    | None => error_monitor w
    end.
Proof.
  rewrite process_log_entry_eq. unfold Traces.counted_status.
  destruct (Py.int _) as [status_code|x]; [|reflexivity].
  destruct (Py.lower_method _) as [lowered|x]; [|reflexivity].
  pose proof (track_error_rate_window e status_code w) as H1.
  destruct (track_error_rate e status_code w) as [[r1 w1] out1].
  unfold Runs.state_of in *. cbn [fst snd] in H1.
  assert (Hgoal : error_monitor w1
                  = match (if 0 <? status_code then Some status_code else None) with
                    | Some s => (ErrorRateMonitor.add_request s (error_monitor w)).2
                    | None => error_monitor w
                    end).
  { rewrite H1. destruct (0 <? status_code); reflexivity. }
  destruct r1 as [u|x]; [|exact Hgoal].
  destruct (track_pool_frame e (Py.strip lowered) w1) as (_ & _ & H2 & _).
  destruct (track_pool e (Py.strip lowered) w1) as [[r2 w2] out2].
  unfold Runs.state_of in *. cbn [fst snd] in H2.
  destruct r2; cbn [fst snd]; rewrite H2; exact Hgoal.
Qed.







End WatcherTrackers.

(** ** LogWatcher: alerts are justified *)

(** The record looked for is the first one emitted or none. *)
Ltac first_record H :=
  unfold Runs.outputs_of in H; cbn [snd In] in H;
  destruct H as [H | H];
  [|repeat (destruct H as [H | H]; [discriminate|]); destruct H].

Section WatcherSoundness.
Import Eff LogWatcher.

Lemma track_error_rate_sound (e : env) (s : Z) (w : t) (stats : ErrorRateMonitor.stats) :
  In (WarningHighErrorRate stats) (Runs.outputs_of (track_error_rate e s w)) ->
  0 < s
  /\ (ErrorRateMonitor.add_request s (error_monitor w)).1 = true
  /\ stats = ErrorRateMonitor.get_current_stats
               (ErrorRateMonitor.add_request s (error_monitor w)).2
  /\ (AlertManager.should_alert (now_error_rate e) "error_rate" (alert_manager w)).1
     = true.
Proof.
  rewrite track_error_rate_eq.
  destruct (Z.ltb_spec 0 s) as [Hs | Hs]; [|intros []].
  destruct (ErrorRateMonitor.add_request s (error_monitor w)) as [breach m].
  destruct breach; [|intros []].
  destruct (AlertManager.should_alert _ _ _) as [fire a].
  destruct fire; [|intros []].
  intros H.
  assert (Heq : stats = ErrorRateMonitor.get_current_stats m).
  { destruct (slack_notifier w); [destruct (post_error_rate e)|]; first_record H;
      inversion H; reflexivity. }
  repeat split; assumption.
Qed.

Lemma update_pool_some (x : option string) (t : PoolTracker.t) (q : string) :
  (PoolTracker.update_pool x t).1 = Some q ->
  exists p, x = Some p /\ Runs.valid_identity p
            /\ PoolTracker.current_pool t = Some q /\ q <> p
            /\ PoolTracker.current_pool (PoolTracker.update_pool x t).2 = Some p.
Proof.
  destruct (update_pool_cases x t) as [[_ Hno] | (p & -> & Hp & _)].
  - rewrite Hno. discriminate.
  - rewrite (update_pool_valid p t Hp). cbn [fst snd PoolTracker.current_pool].
    destruct (Py.opt_truthy (PoolTracker.current_pool t)); [|discriminate].
    cbn [andb]. case_bool_decide as Heq; [discriminate|]. cbn [negb].
    intros Hq. exists p. repeat split; try assumption. congruence.
Qed.

Lemma track_pool_sound (e : env) (p : string) (w : t) (previous pool : string) :
  In (WarningFailover previous pool) (Runs.outputs_of (track_pool e p w)) ->
  pool = p
  /\ (PoolTracker.update_pool (Some p) (pool_tracker w)).1 = Some previous
  /\ (AlertManager.should_alert (now_failover e) "failover" (alert_manager w)).1 = true.
Proof.
  rewrite track_pool_eq.
  destruct (Py.str_truthy p); [|intros []].
  destruct (PoolTracker.update_pool (Some p) (pool_tracker w)) as [previous_pool q].
  destruct previous_pool as [prev|]; [|intros []].
  destruct (Py.str_truthy prev); [|intros []].
  destruct (AlertManager.should_alert _ _ _) as [fire a].
  destruct fire; [|intros []].
  intros H.
  assert (Heq : previous = prev /\ pool = p).
  { destruct (slack_notifier w); [destruct (post_failover e)|]; first_record H;
      inversion H; split; reflexivity. }
  destruct Heq as [-> ->]. repeat split.
Qed.

(** Where a record of one branch can sit in what an entry emits. *)
Lemma process_log_entry_outputs (entry : gmap string Py.value) (e : env) (w : t)
    (o : output) :
  (forall x, o <> ErrorProcessing x) ->
  In o (Runs.outputs_of (process_log_entry entry e w)) ->
  exists s lowered,
    Py.int (dict_get entry "status" (Py.PyInt 0)) = Py.Ok s
    /\ Py.lower_method (dict_get entry "pool" (Py.PyStr "")) = Py.Ok lowered
    /\ (In o (Runs.outputs_of (track_error_rate e s w))
        \/ ((track_error_rate e s w).1.1 = Py.Ok tt
            /\ In o (Runs.outputs_of
                       (track_pool e (Py.strip lowered)
                          (Runs.state_of (track_error_rate e s w))))))
    /\ Runs.state_of (process_log_entry entry e w)
       = match (track_error_rate e s w).1.1 with
         | Py.Ok _ => Runs.state_of
                        (track_pool e (Py.strip lowered)
                           (Runs.state_of (track_error_rate e s w)))
         | Py.Raise _ => Runs.state_of (track_error_rate e s w)
         end.
Proof.
  intros Ho. rewrite process_log_entry_eq.
  assert (Hx : forall x, In o [ErrorProcessing x] -> False).
  { intros x [H | []]. exact (Ho x (eq_sym H)). }
  destruct (Py.int _) as [s|x]; [|intros H; destruct (Hx _ H)].
  destruct (Py.lower_method _) as [lowered|x]; [|intros H; destruct (Hx _ H)].
  intros H. exists s, lowered. split; [reflexivity|]. split; [reflexivity|].
  destruct (track_error_rate e s w) as [[r1 w1] out1].
  unfold Runs.state_of, Runs.outputs_of in *. cbn [fst snd] in *.
  destruct r1 as [[]|x].
  - destruct (track_pool e (Py.strip lowered) w1) as [[r2 w2] out2].
    cbn [fst snd] in *.
    destruct r2 as [u|x]; cbn [fst snd] in *; rewrite ?in_app_iff in H.
    + split; [|reflexivity]. destruct H as [H | H]; [left; exact H|right; split; [reflexivity|exact H]].
    + split; [|reflexivity].
      destruct H as [[H | H] | H];
        [left; exact H|right; split; [reflexivity|exact H]|destruct (Hx _ H)].
  - cbn [fst snd] in *. rewrite in_app_iff in H. split; [|reflexivity].
    destruct H as [H | H]; [left; exact H|destruct (Hx _ H)].
Qed.

Lemma Forall_In_false {A : Type} (f : A -> bool) (l : list A) (x : A) :
  Forall (fun y => f y = false) l -> In x l -> f x = true -> False.
Proof.
  intros HF Hin Hx. rewrite Forall_forall in HF.
  apply list_elem_of_In in Hin. specialize (HF x Hin). congruence.
Qed.

(** X11. Error-rate alerts are justified. When an entry makes the watcher
    log a high error rate, the entry carried a positive status code for
    which [add_request] answered [True], the statistics in the alert are
    those of the window the entry leaves, with at least 50 requests in it,
    and the time of the alert is recorded for the cooldown. *)
Theorem error_rate_alert_justified (entry : gmap string Py.value) (e : env) (w : t)
    (stats : ErrorRateMonitor.stats) :
  In (WarningHighErrorRate stats) (Runs.outputs_of (process_log_entry entry e w)) ->
  let w' := Runs.state_of (process_log_entry entry e w) in
  (exists s : Z,
      Traces.counted_status entry = Some s
      /\ (ErrorRateMonitor.add_request s (error_monitor w)).1 = true)
  /\ stats = ErrorRateMonitor.get_current_stats (error_monitor w')
  /\ (50 <= ErrorRateMonitor.total stats)%nat
  /\ AlertManager.last_alerts (alert_manager w') !! "error_rate"
     = Some (now_error_rate e).
Proof.
  intros Hin w'.
  assert (Hrec : AlertManager.last_alerts (alert_manager w') !! "error_rate"
                 = Some (now_error_rate e)).
  { apply (process_log_entry_error_rate_recorded entry e w).
    apply Exists_exists. exists (WarningHighErrorRate stats).
    split; [apply list_elem_of_In, Hin|reflexivity]. }
  pose proof (process_log_entry_window entry e w) as Hwin. fold w' in Hwin.
  destruct (process_log_entry_outputs entry e w (WarningHighErrorRate stats)
              ltac:(intros ?; discriminate) Hin)
    as (s & lowered & Hs & Hl & Hplace & _).
  assert (H1 : In (WarningHighErrorRate stats) (Runs.outputs_of (track_error_rate e s w))).
  { destruct Hplace as [H | [_ H]]; [exact H|].
    destruct (track_pool_frame e (Py.strip lowered)
                (Runs.state_of (track_error_rate e s w))) as (_ & _ & _ & _ & Hno).
    destruct (Forall_In_false _ _ _ Hno H eq_refl). }
  destruct (track_error_rate_sound e s w stats H1) as (Hpos & Hbreach & Hstats & _).
  assert (Hcs : Traces.counted_status entry = Some s).
  { unfold Traces.counted_status. rewrite Hs, Hl.
    destruct (Z.ltb_spec 0 s); [reflexivity|lia]. }
  rewrite Hcs in Hwin.
  split; [exists s; split; assumption|].
  split; [rewrite Hwin; exact Hstats|].
  split; [|exact Hrec].
  rewrite Hstats.
  rewrite (proj1 (get_current_stats_counts _)).
  rewrite add_request_result in Hbreach.
  destruct (Nat.ltb_spec
              (length (ErrorRateMonitor.requests
                         (ErrorRateMonitor.add_request s (error_monitor w)).2)) 50);
    [discriminate|assumption].
Qed.

Lemma error_rate_alert_justified_witness :
  exists s : Z,
    Traces.counted_status Samples.entry_503 = Some s
    /\ (ErrorRateMonitor.add_request s (error_monitor Samples.watcher_49)).1 = true.
Proof.
  apply (error_rate_alert_justified Samples.entry_503 Samples.quiet Samples.watcher_49
           (ErrorRateMonitor.get_current_stats
              (ErrorRateMonitor.add_request 503 (error_monitor Samples.watcher_49)).2)).
  vm_compute. left. reflexivity.
Defined.

(** X12. Failover alerts are justified. When an entry makes the watcher log
    a failover from [previous] to [pool], then [previous] was the current
    pool before the entry, [pool] is the lowered and trimmed pool of the
    entry, one of the two valid names and different from [previous], it is
    the current pool afterwards, and the time of the alert is recorded for
    the cooldown. *)
Theorem failover_alert_justified (entry : gmap string Py.value) (e : env) (w : t)
    (previous pool : string) :
  In (WarningFailover previous pool) (Runs.outputs_of (process_log_entry entry e w)) ->
  let w' := Runs.state_of (process_log_entry entry e w) in
  Traces.tracked_pool entry = Some pool
  /\ Runs.valid_identity pool
  /\ previous <> pool
  /\ PoolTracker.current_pool (pool_tracker w) = Some previous
  /\ PoolTracker.current_pool (pool_tracker w') = Some pool
  /\ AlertManager.last_alerts (alert_manager w') !! "failover"
     = Some (now_failover e).
Proof.
  intros Hin w'.
  assert (Hrec : AlertManager.last_alerts (alert_manager w') !! "failover"
                 = Some (now_failover e)).
  { apply (process_log_entry_failover_recorded entry e w).
    apply Exists_exists. exists (WarningFailover previous pool).
    split; [apply list_elem_of_In, Hin|reflexivity]. }
  destruct (process_log_entry_outputs entry e w (WarningFailover previous pool)
              ltac:(intros ?; discriminate) Hin)
    as (s & lowered & Hs & Hl & Hplace & Hstate).
  fold w' in Hstate.
  destruct (track_error_rate_frame e s w) as (_ & _ & Hpt & _ & Hno).
  destruct Hplace as [H | [Hok H]]; [destruct (Forall_In_false _ _ _ Hno H eq_refl)|].
  rewrite Hok in Hstate.
  destruct (track_pool_sound e _ _ previous pool H) as (-> & Hup & _).
  pose proof (track_pool_tracker e (Py.strip lowered)
                (Runs.state_of (track_error_rate e s w))) as Htr.
  rewrite <- Hstate in Htr. cbn zeta in Hpt. rewrite Hpt in Hup, Htr.
  destruct (update_pool_some _ _ _ Hup) as (p & Hp & Hvalid & Hcur & Hne & Hnew).
  inversion Hp; subst p.
  assert (Htruthy : Py.str_truthy (Py.strip lowered) = true)
    by (apply valid_identity_truthy, Hvalid).
  rewrite Htruthy in Htr.
  repeat split; try assumption.
  - unfold Traces.tracked_pool. rewrite Hs, Hl, Htruthy. reflexivity.
  - rewrite Htr. exact Hnew.
Qed.

Lemma failover_alert_justified_witness :
  Traces.tracked_pool Samples.entry_green = Some "green"
  /\ Runs.valid_identity "green"
  /\ "blue" <> "green".
Proof.
  pose proof (failover_alert_justified Samples.entry_green Samples.quiet
                (process_entries [(Samples.entry_blue, Samples.quiet)] Samples.watcher).1
                "blue" "green") as H.
  destruct H as (H1 & H2 & H3 & _).
  - vm_compute. left. reflexivity.
  - split; [exact H1|split; [exact H2|exact H3]].
Defined.

End WatcherSoundness.

(** ** LogWatcher: what a run keeps *)

Section WatcherKeeps.
Import Eff LogWatcher.

Abbreviation no_slack_record :=
  (fun o : Eff.output => Traces.is_slack_record o = false).

Lemma track_error_rate_no_webhook (e : env) (s : Z) (w : t) :
  slack_notifier w = None ->
  slack_notifier (Runs.state_of (track_error_rate e s w)) = None
  /\ Forall no_slack_record (Runs.outputs_of (track_error_rate e s w)).
Proof.
  intros Hn. rewrite track_error_rate_eq, Hn.
  destruct (0 <? s); [|split; [first [exact Hn|reflexivity]|constructor]].
  destruct (ErrorRateMonitor.add_request s (error_monitor w)) as [breach m].
  destruct breach; [|split; [first [exact Hn|reflexivity]|constructor]].
  destruct (AlertManager.should_alert _ _ _) as [fire a].
  destruct fire; split; try reflexivity; emitted.
Qed.

Lemma track_pool_no_webhook (e : env) (p : string) (w : t) :
  slack_notifier w = None ->
  slack_notifier (Runs.state_of (track_pool e p w)) = None
  /\ Forall no_slack_record (Runs.outputs_of (track_pool e p w)).
Proof.
  intros Hn. rewrite track_pool_eq, Hn.
  destruct (Py.str_truthy p); [|split; [first [exact Hn|reflexivity]|constructor]].
  destruct (PoolTracker.update_pool (Some p) (pool_tracker w)) as [previous_pool q].
  destruct previous_pool as [previous|]; [|split; [first [exact Hn|reflexivity]|constructor]].
  destruct (Py.str_truthy previous); [|split; [first [exact Hn|reflexivity]|constructor]].
  destruct (AlertManager.should_alert _ _ _) as [fire a].
  destruct fire; split; try reflexivity; emitted.
Qed.

(** X13. Without a webhook nothing is ever sent: a watcher built with
    [SLACK_WEBHOOK_URL] unset or empty, and more generally any watcher
    without notifier, emits no post and no record of the Slack notifier
    along any sequence of entries, whatever the environment answers. *)
Theorem no_webhook_no_post (entries : list (gmap string Py.value * env)) :
  (forall w : t,
      slack_notifier w = None ->
      slack_notifier (process_entries entries w).1 = None
      /\ Forall (fun o => Traces.is_slack_record o = false)
                (process_entries entries w).2)
  /\ (forall (webhook : option string) (th : Py.float) (W : nat) (cd : Z),
        webhook = None \/ webhook = Some "" ->
        Forall (fun o => Traces.is_slack_record o = false)
               (process_entries entries (init webhook th W cd)).2).
Proof.
  assert (H : forall w : t,
             slack_notifier w = None ->
             slack_notifier (process_entries entries w).1 = None
             /\ Forall no_slack_record (process_entries entries w).2).
  { intros w Hw.
    apply (process_entries_inv (fun w => slack_notifier w = None) no_slack_record
             (fun _ => True)); try assumption.
    - intros entry e w' _ Hw'.
      apply (process_log_entry_inv (fun w0 => slack_notifier w0 = None)
               no_slack_record); try assumption.
      + intros s w1. apply track_error_rate_no_webhook.
      + intros p w1. apply track_pool_no_webhook.
      + reflexivity.
    - apply Forall_forall. intros; exact I. }
  split; [exact H|].
  intros webhook th W cd Hweb. apply H.
  destruct Hweb as [-> | ->]; reflexivity.
Qed.

Lemma no_webhook_no_post_witness :
  Forall (fun o => Traces.is_slack_record o = false)
         (process_entries [(Samples.entry_503, Samples.quiet)]
            (init None Samples.two_percent 200 300)).2.
Proof.
  apply (proj2 (no_webhook_no_post [(Samples.entry_503, Samples.quiet)])).
  left. reflexivity.
Defined.

Lemma track_error_rate_config (e : env) (s : Z) (w : t) :
  Traces.config (Runs.state_of (track_error_rate e s w)) = Traces.config w.
Proof.
  destruct (track_error_rate_frame e s w) as (Hc & _ & _ & Hs & _).
  pose proof (track_error_rate_window e s w) as Hw.
  unfold Traces.config. cbn zeta in Hc, Hs. rewrite Hc, Hs, Hw.
  destruct (0 <? s); [|reflexivity].
  rewrite add_request_window_size, add_request_threshold. reflexivity.
Qed.

Lemma track_pool_config (e : env) (p : string) (w : t) :
  Traces.config (Runs.state_of (track_pool e p w)) = Traces.config w.
Proof.
  destruct (track_pool_frame e p w) as (Hc & _ & Hm & Hs & _).
  unfold Traces.config. cbn zeta in Hc, Hm, Hs. rewrite Hc, Hm, Hs. reflexivity.
Qed.

Lemma track_error_rate_bounded (e : env) (s : Z) (w : t) :
  Traces.window_bounded w -> Traces.window_bounded (Runs.state_of (track_error_rate e s w)).
Proof.
  intros Hb. unfold Traces.window_bounded. rewrite track_error_rate_window.
  destruct (0 <? s); [|exact Hb]. apply add_request_bounded, Hb.
Qed.

Lemma track_pool_bounded (e : env) (p : string) (w : t) :
  Traces.window_bounded w -> Traces.window_bounded (Runs.state_of (track_pool e p w)).
Proof.
  intros Hb. destruct (track_pool_frame e p w) as (_ & _ & Hm & _).
  unfold Traces.window_bounded. cbn zeta in Hm. rewrite Hm. exact Hb.
Qed.

Lemma track_error_rate_pool_inv (e : env) (s : Z) (w : t) :
  Traces.pool_inv (pool_tracker w) ->
  Traces.pool_inv (pool_tracker (Runs.state_of (track_error_rate e s w))).
Proof.
  intros Hi. destruct (track_error_rate_frame e s w) as (_ & _ & Hpt & _).
  cbn zeta in Hpt. rewrite Hpt. exact Hi.
Qed.

Lemma track_pool_pool_inv (e : env) (p : string) (w : t) :
  Traces.pool_inv (pool_tracker w) ->
  Traces.pool_inv (pool_tracker (Runs.state_of (track_pool e p w))).
Proof.
  intros Hi. rewrite track_pool_tracker.
  destruct (Py.str_truthy p); [|exact Hi]. apply update_pool_inv, Hi.
Qed.

(** A property of the state that both branches keep is kept along any
    sequence of entries. *)
Lemma process_entries_keeps (P : t -> Prop)
    (entries : list (gmap string Py.value * env)) (w : t) :
  (forall e s w1, P w1 -> P (Runs.state_of (track_error_rate e s w1))) ->
  (forall e p w1, P w1 -> P (Runs.state_of (track_pool e p w1))) ->
  P w -> P (process_entries entries w).1.
Proof.
  intros HA HB Hw.
  apply (process_entries_inv P (fun _ => True) (fun _ => True)); try assumption.
  - intros entry e w' _ Hw'.
    apply (process_log_entry_inv P (fun _ => True)); try assumption.
    + intros s w1 H1. split; [apply HA, H1|apply Forall_forall; intros; exact I].
    + intros p w1 H1. split; [apply HB, H1|apply Forall_forall; intros; exact I].
    + intros; exact I.
  - apply Forall_forall. intros; exact I.
Qed.

Lemma process_entries_keeps_config (entries : list (gmap string Py.value * env))
    (w : t) :
  Traces.config (process_entries entries w).1 = Traces.config w.
Proof.
  apply (process_entries_keeps (fun w' => Traces.config w' = Traces.config w)).
  - intros e s w1 H1. rewrite track_error_rate_config. exact H1.
  - intros e p w1 H1. rewrite track_pool_config. exact H1.
  - reflexivity.
Qed.

(** X14. Processing entries never changes the configuration: the cooldown,
    the window size, the threshold and the notifier of a watcher are, after
    any sequence of entries and whatever the environment answers, the ones
    it had before. *)
Theorem process_entries_config (entries : list (gmap string Py.value * env)) (w : t) :
  Traces.config (process_entries entries w).1 = Traces.config w.
Proof. apply process_entries_keeps_config. Qed.

(** X15. The trackers of a watcher keep their bounds along any sequence of
    entries, malformed ones and crashing posts included: the window holds at
    most [window_size] codes, the pool history holds at most 10 names, all
    valid, and [current_pool] is the newest of them. This holds in
    particular of every watcher reached from the constructor. *)
Theorem process_entries_bounds (entries : list (gmap string Py.value * env)) :
  (forall w : t,
      (length (ErrorRateMonitor.requests (error_monitor w))
       <= ErrorRateMonitor.window_size (error_monitor w))%nat ->
      Traces.pool_inv (pool_tracker w) ->
      (length (ErrorRateMonitor.requests (error_monitor (process_entries entries w).1))
       <= ErrorRateMonitor.window_size (error_monitor w))%nat
      /\ Traces.pool_inv (pool_tracker (process_entries entries w).1))
  /\ (forall (webhook : option string) (th : Py.float) (W : nat) (cd : Z),
        (length (ErrorRateMonitor.requests
                   (error_monitor (process_entries entries (init webhook th W cd)).1))
         <= W)%nat
        /\ Traces.pool_inv
             (pool_tracker (process_entries entries (init webhook th W cd)).1)).
Proof.
  assert (H : forall w : t,
             Traces.window_bounded w -> Traces.pool_inv (pool_tracker w) ->
             (length (ErrorRateMonitor.requests
                        (error_monitor (process_entries entries w).1))
              <= ErrorRateMonitor.window_size (error_monitor w))%nat
             /\ Traces.pool_inv (pool_tracker (process_entries entries w).1)).
  { intros w Hb Hi. split.
    - pose proof (process_entries_keeps_config entries w) as Hc.
      assert (Hb' : Traces.window_bounded (process_entries entries w).1).
      { apply process_entries_keeps; try assumption.
        - intros e s w1. apply track_error_rate_bounded.
        - intros e p w1. apply track_pool_bounded. }
      unfold Traces.window_bounded in Hb'. unfold Traces.config in Hc.
      inversion Hc as [[Hcd HW Hth Hsn]]. lia.
    - apply (process_entries_keeps (fun w' => Traces.pool_inv (pool_tracker w')));
        try assumption.
      + intros e s w1. apply track_error_rate_pool_inv.
      + intros e p w1. apply track_pool_pool_inv. }
  split; [exact H|].
  intros webhook th W cd.
  apply (H (init webhook th W cd)).
  - unfold Traces.window_bounded. simpl. lia.
  - repeat split; simpl; [lia|constructor].
Qed.

Lemma process_entries_bounds_witness :
  (length (ErrorRateMonitor.requests
             (error_monitor
                (process_entries [(Samples.entry_503, Samples.quiet)]
                   Samples.watcher_49).1))
   <= ErrorRateMonitor.window_size (error_monitor Samples.watcher_49))%nat.
Proof.
  apply (proj1 (process_entries_bounds [(Samples.entry_503, Samples.quiet)])
           Samples.watcher_49).
  - vm_compute. lia.
  - repeat split; simpl; [lia|constructor].
Defined.

End WatcherKeeps.

(** ** The lines of the log *)

Section Lines.
Import Eff Tail.

Lemma dict_of_items_snoc (items : list (string * Py.value)) (kv : string * Py.value) :
  dict_of_items (items ++ [kv]) = <[kv.1 := kv.2]> (dict_of_items items).
Proof. unfold dict_of_items. rewrite foldl_app. reflexivity. Qed.

Lemma dict_of_items_empty (items : list (string * Py.value)) :
  dict_of_items items = ∅ <-> items = [].
Proof.
  split; [|intros ->; reflexivity].
  destruct items as [|kv items] using rev_ind; [reflexivity|].
  rewrite dict_of_items_snoc. intros H.
  destruct (insert_non_empty (dict_of_items items) kv.1 kv.2 H).
Qed.

Lemma is_object_dec (d : decoded) : is_object d \/ ~ is_object d.
Proof.
  destruct d as [v| |]; try (right; intros [items H]; discriminate).
  destruct v; try (right; intros [items H]; discriminate).
  left. eexists. reflexivity.
Qed.

Lemma handle_line_other (d : decoded) (e : LogWatcher.env) (w : LogWatcher.t) :
  ~ is_object d ->
  handle_line d e w
  = (w, match d with
        | JSONDecodeError => [DebugParseFailed]
        | DecoderCrashed => [ErrorReadingLogFile]
        | Decoded v =>
            if truthy v then [Core (ErrorProcessing Py.AttributeError)] else []
        end).
Proof.
  intros Hno. destruct d as [v| |]; [|reflexivity|reflexivity].
  destruct v; try (destruct Hno; eexists; reflexivity);
    unfold handle_line; cbn [parse_log_line];
    destruct (truthy _); reflexivity.
Qed.

(** X16. A line that does not decode to a JSON object never changes the
    watcher. A line that is not JSON leaves a debug record only, a value
    that is falsy ([null], [false], [0], [0.0], [""], [[]]) leaves nothing, any
    other value is refused by [process_log_entry] with one error record, and
    a crash of the decoder is logged by the reading loop. The empty object
    leaves nothing either. *)
Theorem handle_line_not_object (d : decoded) (e : LogWatcher.env) (w : LogWatcher.t) :
  (~ is_object d ->
   handle_line d e w
   = (w, match d with
         | JSONDecodeError => [DebugParseFailed]
         | DecoderCrashed => [ErrorReadingLogFile]
         | Decoded v =>
             if truthy v then [Core (ErrorProcessing Py.AttributeError)] else []
         end))
  /\ handle_line (Decoded (Py.PyDict [])) e w = (w, []).
Proof.
  split; [apply handle_line_other|reflexivity].
Qed.

Lemma handle_line_not_object_witness :
  handle_line (Decoded (Py.PyList [Py.PyInt 1])) Samples.quiet Samples.watcher
  = (Samples.watcher, [Core (ErrorProcessing Py.AttributeError)]).
Proof.
  apply (proj1 (handle_line_not_object (Decoded (Py.PyList [Py.PyInt 1]))
                  Samples.quiet Samples.watcher)).
  intros [items H]. discriminate.
Defined.

Lemma handle_line_object (items : list (string * Py.value)) (e : LogWatcher.env)
    (w : LogWatcher.t) :
  handle_line (Decoded (Py.PyDict items)) e w
  = if bool_decide (dict_of_items items = ∅) then (w, [])
    else (Runs.state_of (LogWatcher.process_log_entry (dict_of_items items) e w),
          map Core (Runs.outputs_of
                      (LogWatcher.process_log_entry (dict_of_items items) e w))).
Proof.
  unfold handle_line. cbn [parse_log_line truthy Tail.process_log_entry].
  destruct items as [|kv items].
  - reflexivity.
  - rewrite bool_decide_eq_false_2
      by (rewrite dict_of_items_empty; discriminate).
    destruct (LogWatcher.process_log_entry _ e w) as [[r w'] out]. reflexivity.
Qed.

(** X17. The watcher after any lines is the watcher after the JSON objects
    among them, processed in order by [process_log_entry]: lines that are
    not JSON, values that are not objects and crashes of the decoder do not
    count. When every line is an object the records emitted are the same as
    well. *)
Theorem handle_lines_objects (lines : list (decoded * LogWatcher.env))
    (w : LogWatcher.t) :
  (handle_lines lines w).1 = (LogWatcher.process_entries (objects lines) w).1
  /\ (Forall (fun x => is_object x.1) lines ->
      (handle_lines lines w).2
      = map Core (LogWatcher.process_entries (objects lines) w).2).
Proof.
  revert w. induction lines as [|[d e] rest IH]; intros w.
  - split; reflexivity.
  - cbn [handle_lines]. unfold objects. cbn [omap list_omap fst snd].
    fold (objects rest).
    destruct (is_object_dec d) as [[items ->] | Hno].
    + rewrite handle_line_object. cbn [LogWatcher.process_entries].
      case_bool_decide as Hempty.
      * destruct (IH w) as [IH1 IH2].
        destruct (handle_lines rest w) as [w'' out']. cbn [fst snd] in *.
        split; [exact IH1|].
        intros Hall. apply Forall_cons in Hall. exact (IH2 (proj2 Hall)).
      * destruct (LogWatcher.process_log_entry (dict_of_items items) e w)
          as [[r w'] out].
        unfold Runs.state_of, Runs.outputs_of. cbn [fst snd].
        destruct (IH w') as [IH1 IH2].
        destruct (handle_lines rest w') as [w'' out'].
        destruct (LogWatcher.process_entries (objects rest) w') as [w3 out3].
        cbn [fst snd] in *.
        split; [exact IH1|].
        intros Hall. apply Forall_cons in Hall.
        rewrite (IH2 (proj2 Hall)), map_app. reflexivity.
    + rewrite (handle_line_other d e w Hno).
      assert (Hskip : match d with
                      | Decoded (Py.PyDict items) => Some (dict_of_items items, e)
                      | _ => None
                      end = None).
      { destruct d as [v| |]; try reflexivity.
        destruct v; try reflexivity. destruct Hno. eexists. reflexivity. }
      rewrite Hskip.
      destruct (IH w) as [IH1 IH2].
      destruct (handle_lines rest w) as [w'' out']. cbn [fst snd] in *.
      split; [exact IH1|].
      intros Hall. apply Forall_cons in Hall. destruct (Hno (proj1 Hall)).
Qed.

Lemma handle_lines_objects_witness :
  (handle_lines
     [(Decoded (Py.PyDict [("pool", Py.PyStr "blue")]), Samples.quiet);
      (Decoded (Py.PyDict [("pool", Py.PyStr "green")]), Samples.quiet)]
     Samples.watcher).2
  = map Core
      (LogWatcher.process_entries
         (objects
            [(Decoded (Py.PyDict [("pool", Py.PyStr "blue")]), Samples.quiet);
             (Decoded (Py.PyDict [("pool", Py.PyStr "green")]), Samples.quiet)])
         Samples.watcher).2.
Proof.
  apply (handle_lines_objects
           [(Decoded (Py.PyDict [("pool", Py.PyStr "blue")]), Samples.quiet);
            (Decoded (Py.PyDict [("pool", Py.PyStr "green")]), Samples.quiet)]
           Samples.watcher).
  repeat constructor; eexists; reflexivity.
Defined.

End Lines.

(** ** LogWatcher: no alert is missed *)

Section WatcherCompleteness.
Import Eff LogWatcher.








End WatcherCompleteness.
